(** * FocusStudy AI: the note-ingestion and prompt-composition pipeline

    A shallow embedding of [app.py]: the Python string operations the
    program relies on ([str.strip], [str.replace], [str.join]), the pure
    helpers [build_prompt] and [format_html], and the effectful functions
    [extract_pdf_text], [gen_with_retry], [ocr_image_with_gemini] and the
    request handler [home], written in a small state-and-exception monad
    over a world that records every call made to an external collaborator. *)

From Stdlib Require Import List NArith ZArith Bool Lia String Ascii.
Import ListNotations.

Set Implicit Arguments.

(** ** Python strings *)

Module PyStr.

(** A Python [str] is a sequence of Unicode code points. *)
Definition pystr := list N.

(** An ASCII literal of the source, as a [pystr]. *)
Definition lit (s : string) : pystr :=
  List.map N_of_ascii (list_ascii_of_string s).

Definition nl : N := 10.   (* "\n" *)
Definition cr : N := 13.   (* "\r" *)
Definition dq : N := 34.   (* the double quote character *)

Fixpoint eqb (s t : pystr) : bool :=
  match s, t with
  | [], [] => true
  | a :: s', b :: t' => N.eqb a b && eqb s' t'
  | _, _ => false
  end.

(** Truth value of a string: [bool(s)] is [len(s) != 0]. *)
Definition truthy (s : pystr) : bool :=
  match s with [] => false | _ :: _ => true end.

(** [x or d] on strings. *)
Definition or_else (x d : pystr) : pystr := if truthy x then x else d.

(** [x or d] where [x] may be [None]. *)
Definition opt_or (x : option pystr) (d : pystr) : pystr :=
  match x with
  | Some s => or_else s d
  | None => d
  end.

(** The code points [str.strip()] removes: those for which
    [str.isspace] holds (CPython's [_PyUnicode_IsWhitespace]). *)
Definition is_space (c : N) : bool :=
  (((9 <=? c) && (c <=? 13)) || ((28 <=? c) && (c <=? 32))
  || (c =? 133) || (c =? 160) || (c =? 5760)
  || ((8192 <=? c) && (c <=? 8202))
  || (c =? 8232) || (c =? 8233) || (c =? 8239) || (c =? 8287)
  || (c =? 12288))%N.

Fixpoint lstrip (s : pystr) : pystr :=
  match s with
  | [] => []
  | c :: s' => if is_space c then lstrip s' else s
  end.

Definition rstrip (s : pystr) : pystr := rev (lstrip (rev s)).

Definition strip (s : pystr) : pystr := rstrip (lstrip s).

(** A string is blank when it is empty or holds whitespace only. *)
Definition blank (s : pystr) : bool := forallb is_space s.

(** [sep.join(parts)] *)
Fixpoint join (sep : pystr) (parts : list pystr) : pystr :=
  match parts with
  | [] => []
  | [p] => p
  | p :: ps => p ++ sep ++ join sep ps
  end.

(** [strip_prefix old s] is the rest of [s] after a leading [old]. *)
Fixpoint strip_prefix (old s : pystr) : option pystr :=
  match old, s with
  | [], _ => Some s
  | _ :: _, [] => None
  | a :: old', b :: s' => if N.eqb a b then strip_prefix old' s' else None
  end.

(** The scan of [str.replace] for a non-empty [old]: occurrences are
    found left to right and do not overlap.  The fuel bounds the number
    of scan steps; [replace] supplies the length of the string. *)
Fixpoint replace_scan (fuel : nat) (old new s : pystr) : pystr :=
  match fuel with
  | O => s
  | S fuel' =>
      match s with
      | [] => []
      | c :: s' =>
          match strip_prefix old s with
          | Some rest => new ++ replace_scan fuel' old new rest
          | None => c :: replace_scan fuel' old new s'
          end
      end
  end.

(** [s.replace(old, new)].  With an empty [old] Python inserts [new]
    before every character and at the end. *)
Definition replace (old new s : pystr) : pystr :=
  match old with
  | [] => new ++ flat_map (fun c => c :: new) s
  | _ :: _ => replace_scan (List.length s) old new s
  end.

End PyStr.

Import PyStr.

(** ** PromptComposer: [build_prompt] *)

Definition base : pystr :=
  lit "You are FocusStudy AI, an exam-focused tutor." ++ [nl]
  ++ lit "Use ONLY the provided notes. If notes do not contain the answer, say:" ++ [nl]
  ++ [dq] ++ lit "I can't find this in the provided notes." ++ [dq]
  ++ lit " Then give a short general hint (2-3 lines max)." ++ [nl]
  ++ lit "Format cleanly using headings and bullet points." ++ [nl].

(** The dictionary literal of [build_prompt], in source order. *)
Definition mode_table : list (pystr * pystr) :=
  [ (lit "explain",
     lit "Mode: EXPLAIN. Explain simply and give one small example." ++ [nl]);
    (lit "exam",
     lit "Mode: EXAM READY. Write a structured exam answer with headings + key points." ++ [nl]);
    (lit "revision",
     lit "Mode: REVISION. Give crisp revision bullets." ++ [nl]) ].

(** [d.get(key, default)] on a dictionary given by its items. *)
Fixpoint dict_get (d : list (pystr * pystr)) (key default : pystr) : pystr :=
  match d with
  | [] => default
  | (k, v) :: d' => if PyStr.eqb k key then v else dict_get d' key default
  end.

Definition mode_line (mode : pystr) : pystr :=
  dict_get mode_table mode (lit "Mode: EXPLAIN." ++ [nl]).

Definition notes_block (notes_text : pystr) : pystr :=
  if truthy (strip notes_text)
  then [nl] ++ lit "NOTES:" ++ [nl] ++ notes_text ++ [nl]
  else [nl] ++ lit "NOTES: (none)" ++ [nl].

Definition build_prompt (mode question notes_text : pystr) : pystr :=
  base ++ mode_line mode ++ notes_block notes_text
  ++ [nl] ++ lit "QUESTION:" ++ [nl] ++ question
  ++ [nl; nl] ++ lit "ANSWER:" ++ [nl].

(** ** ResponseFormatter: [format_html] *)

Definition format_html (text : pystr) : pystr :=
  if negb (truthy text) then []
  else
    let text := replace [cr; nl] [nl] text in
    let text := replace [nl; nl] (lit "<br><br>") text in
    let text := replace [nl] (lit "<br>") text in
    text.

(** ** The outside world

    The program talks to three collaborators: the PDF library, the image
    library and the hosted generation service.  Their answers are taken
    as given ([Collaborators]); every call the program makes to one of
    them, and every [time.sleep], is appended to the world's trace. *)

Definition bytes := list Byte.byte.

(** An instance of [Exception]: its class name and what [str(e)] gives. *)
Record exn := Exn { exn_type : pystr; exn_str : pystr }.

(** A decoded picture, as returned by [Image.open(...).convert("RGB")]. *)
Record Image := { im_mode : pystr; im_data : bytes }.

(** The [contents] argument of [generate_content]: one string, or a list
    mixing strings and images. *)
Inductive part := PText (s : pystr) | PImage (img : Image).
Inductive contents := CStr (s : pystr) | CList (ps : list part).

(** The response object: its [text] attribute may be absent or [None]. *)
Record Response := { text : option pystr }.

(** A page of a parsed PDF: [page.extract_text()] raises, or returns
    [None] or a string. *)
Definition Page := (exn + option pystr)%type.

Record Collaborators := {
  (** [PyPDF2.PdfReader(stream)] followed by [reader.pages] *)
  PdfReader : bytes -> exn + list Page;
  (** [Image.open(io.BytesIO(b)).convert("RGB")] *)
  Image_open_RGB : bytes -> exn + Image;
  (** [client.models.generate_content(model=..., contents=...)]; the
      first argument is the number of calls made to the service before
      this one *)
  generate_content : nat -> pystr -> contents -> exn + Response
}.

Inductive event :=
| EvPdfReader (stream : bytes)
| EvImageOpen (stream : bytes)
| EvGenerate (model : pystr) (c : contents)
| EvSleep (secs : Z).

Definition World := list event.

Definition is_generate (ev : event) : bool :=
  match ev with EvGenerate _ _ => true | _ => false end.

(** Number of calls made to the generation service so far. *)
Definition gen_calls (w : World) : nat := List.length (filter is_generate w).

(** The waits of a trace, in order, and their total. *)
Fixpoint sleeps (w : World) : list Z :=
  match w with
  | [] => []
  | EvSleep secs :: w' => secs :: sleeps w'
  | _ :: w' => sleeps w'
  end.

Definition total_sleep (w : World) : Z := fold_right Z.add 0%Z (sleeps w).

(** ** A monad for state and exceptions *)

Inductive result (A : Type) :=
| Ok (a : A)
| Raise (e : exn).
Arguments Ok {A} a.
Arguments Raise {A} e.

Definition M (A : Type) := World -> result A * World.

Definition ret {A} (a : A) : M A := fun w => (Ok a, w).

Definition raise {A} (e : exn) : M A := fun w => (Raise e, w).

Definition bind {A B} (m : M A) (k : A -> M B) : M B :=
  fun w =>
    match m w with
    | (Ok a, w') => k a w'
    | (Raise e, w') => (Raise e, w')
    end.

(** [try: x = m  except Exception as e: on_exn(e)  else: on_ok(x)] *)
Definition try_catch {A B} (m : M A) (on_ok : A -> M B) (on_exn : exn -> M B)
  : M B :=
  fun w =>
    match m w with
    | (Ok a, w') => on_ok a w'
    | (Raise e, w') => on_exn e w'
    end.

Definition emit (ev : event) : M unit := fun w => (Ok tt, w ++ [ev]).

Definition lift_sum {A} (x : exn + A) : M A :=
  match x with
  | inl e => raise e
  | inr a => ret a
  end.

Notation "x <- m ;; k" := (bind m (fun x => k))
  (at level 61, m at next level, right associativity).
Notation "m ;;; k" := (bind m (fun _ => k))
  (at level 61, right associativity).

(** ** The program *)

Record FileStorage := { filename : option pystr; stream : bytes }.

Inductive http_method := GET | HEAD | POST.

(** The parts of [flask.request] the handler reads. *)
Record Request := {
  method : http_method;
  form_mode : option pystr;
  form_question : option pystr;
  files_pdf : option FileStorage;
  files_image : option FileStorage
}.

(** What [render_template("index.html", answer=..., error=...)] is given. *)
Record Rendered := render_template { answer : pystr; error : pystr }.

Definition TEXT_MODEL : pystr := lit "gemini-2.5-flash".
Definition VISION_MODEL : pystr := lit "gemini-2.5-flash".

Section Program.

Variable env : Collaborators.

Definition call_PdfReader (pdf_file : FileStorage) : M (list Page) :=
  emit (EvPdfReader (stream pdf_file)) ;;;
  lift_sum (PdfReader env (stream pdf_file)).

Definition call_Image_open (b : bytes) : M Image :=
  emit (EvImageOpen b) ;;;
  lift_sum (Image_open_RGB env b).

Definition call_generate_content (model : pystr) (c : contents) : M Response :=
  fun w =>
    (emit (EvGenerate model c) ;;;
     lift_sum (generate_content env (gen_calls w) model c)) w.

Definition sleep (secs : Z) : M unit := emit (EvSleep secs).

(** The loop of [extract_pdf_text] over [reader.pages]. *)
Fixpoint extract_pages (pages : list Page) (parts : list pystr)
  : M (list pystr) :=
  match pages with
  | [] => ret parts
  | page :: pages' =>
      t0 <- lift_sum page ;;
      let t := strip (opt_or t0 []) in
      if truthy t then extract_pages pages' (parts ++ [t])
      else extract_pages pages' parts
  end.

Definition extract_pdf_text (pdf_file : FileStorage) : M pystr :=
  try_catch
    (pages <- call_PdfReader pdf_file ;;
     parts <- extract_pages pages [] ;;
     ret (strip (join [nl; nl] parts)))
    (fun s => ret s)
    (fun _ => ret []).

(** [raise last_err] when [last_err] is still [None]. *)
Definition raise_None : exn :=
  Exn (lit "TypeError") (lit "exceptions must derive from BaseException").

(** The loop [for i in range(tries)] of [gen_with_retry], entered at
    index [i] with [remaining] iterations to go; after the loop,
    [raise last_err]. *)
Fixpoint retry_loop (model : pystr) (c : contents)
    (remaining i : nat) (last_err : option exn) : M pystr :=
  match remaining with
  | O =>
      match last_err with
      | Some e => raise e
      | None => raise raise_None
      end
  | S remaining' =>
      try_catch (call_generate_content model c)
        (fun resp => ret (opt_or (text resp) []))
        (fun e =>
           sleep (2 * (Z.of_nat i + 1)) ;;;
           retry_loop model c remaining' (S i) (Some e))
  end.

Definition gen_with_retry (model : pystr) (c : contents) (tries : nat)
  : M pystr :=
  retry_loop model c tries 0 None.

Definition ocr_prompt : pystr :=
  lit "Extract the handwritten text clearly and accurately. "
  ++ lit "Return ONLY the extracted text. No extra commentary.".

Definition ocr_image_with_gemini (image_file : FileStorage) : M pystr :=
  let img_bytes := stream image_file in
  pil_img <- call_Image_open img_bytes ;;
  r <- gen_with_retry VISION_MODEL
         (CList [PText ocr_prompt; PImage pil_img]) 3 ;;
  ret (strip (or_else r [])).

(** The truth value of [f and f.filename] for an entry of
    [request.files]: a [FileStorage] is true when its filename is. *)
Definition attached (f : option FileStorage) : option FileStorage :=
  match f with
  | Some fs =>
      if truthy (opt_or (filename fs) []) then Some fs else None
  | None => None
  end.

Definition msg_no_question : pystr := lit "Please type your question.".

Definition msg_scanned_pdf : pystr :=
  lit "This PDF looks scanned/handwritten. Please upload clear images instead.".

(** The handler of the route ["/"].  A [return] in the middle of the
    body is an [inl] carrying the rendered page; [inr] carries
    [notes_text] on to the next statement. *)
Definition home (request : Request) : M Rendered :=
  let answer_html : pystr := [] in
  let error : pystr := [] in
  match method request with
  | POST =>
      let mode :=
        match form_mode request with Some m => m | None => lit "explain" end in
      let question := strip (opt_or (form_question request) []) in
      let pdf := files_pdf request in
      let image := files_image request in
      if negb (truthy question) then
        ret (render_template answer_html msg_no_question)
      else
        let notes_text : pystr := [] in
        after_pdf <-
          match attached pdf with
          | Some pdf =>
              pdf_text <- extract_pdf_text pdf ;;
              if negb (truthy pdf_text) then
                ret (inl (render_template answer_html msg_scanned_pdf))
              else ret (inr pdf_text)
          | None => ret (inr notes_text)
          end ;;
        match after_pdf with
        | inl page => ret page
        | inr notes_text =>
            after_image <-
              match attached image with
              | Some image =>
                  try_catch (ocr_image_with_gemini image)
                    (fun extracted =>
                       if truthy extracted then
                         if truthy notes_text
                         then ret (inr (strip (notes_text ++ [nl; nl] ++ extracted)))
                         else ret (inr extracted)
                       else ret (inr notes_text))
                    (fun e =>
                       ret (inl (render_template answer_html
                                   (lit "Image OCR failed: " ++ exn_str e))))
              | None => ret (inr notes_text)
              end ;;
            match after_image with
            | inl page => ret page
            | inr notes_text =>
                let prompt := build_prompt mode question notes_text in
                try_catch (gen_with_retry TEXT_MODEL (CStr prompt) 3)
                  (fun final_text =>
                     ret (render_template (format_html final_text) error))
                  (fun e =>
                     ret (render_template answer_html
                            (lit "Gemini error: " ++ exn_str e)))
            end
        end
  | _ => ret (render_template answer_html error)
  end.

End Program.

(** ** Vocabulary of the specification *)

(** The three named modes. *)
Definition known_modes : list pystr :=
  [lit "explain"; lit "exam"; lit "revision"].

Definition known_mode (mode : pystr) : bool :=
  existsb (fun k => PyStr.eqb k mode) known_modes.

(** The four sections of a prompt. *)
Definition preamble_lines : list pystr :=
  [ lit "You are FocusStudy AI, an exam-focused tutor.";
    lit "Use ONLY the provided notes. If notes do not contain the answer, say:";
    [dq] ++ lit "I can't find this in the provided notes." ++ [dq]
      ++ lit " Then give a short general hint (2-3 lines max).";
    lit "Format cleanly using headings and bullet points." ].

(** Section 1: the four lines above, each closed by a line feed. *)
Definition preamble : pystr :=
  flat_map (fun line => line ++ [nl]) preamble_lines.

(** Section 2: the instruction line of each named mode, and the line of
    every other mode. *)
Definition instruction_line (mode : pystr) : pystr :=
  if PyStr.eqb mode (lit "explain") then
    lit "Mode: EXPLAIN. Explain simply and give one small example." ++ [nl]
  else if PyStr.eqb mode (lit "exam") then
    lit "Mode: EXAM READY. Write a structured exam answer with headings + key points."
    ++ [nl]
  else if PyStr.eqb mode (lit "revision") then
    lit "Mode: REVISION. Give crisp revision bullets." ++ [nl]
  else lit "Mode: EXPLAIN." ++ [nl].

(** [needle in s] *)
Fixpoint contains (needle s : pystr) : bool :=
  match strip_prefix needle s with
  | Some _ => true
  | None =>
      match s with
      | [] => false
      | _ :: s' => contains needle s'
      end
  end.


Definition question_section (question : pystr) : pystr :=
  [nl] ++ lit "QUESTION:" ++ [nl] ++ question ++ [nl; nl] ++ lit "ANSWER:" ++ [nl].

Definition notes_placeholder : pystr := [nl] ++ lit "NOTES: (none)" ++ [nl].

Definition notes_literal (notes : pystr) : pystr :=
  [nl] ++ lit "NOTES:" ++ [nl] ++ notes ++ [nl].

(** The markers of the response formatter. *)
Definition line_marker : pystr := lit "<br>".
Definition paragraph_marker : pystr := lit "<br><br>".

(** Replacing every line break by the line marker, one at a time. *)
Definition break_each (c : N) : pystr :=
  if N.eqb c nl then line_marker else [c].

(** What a response carries as text: nothing counts as the empty string. *)
Definition response_text (resp : Response) : pystr :=
  match text resp with
  | Some t => t
  | None => []
  end.

(** The outcome of the [k]-th attempt (counted from 1) of a call of the
    generation client entered in world [w]. *)
Definition attempt (env : Collaborators) (w : World)
    (model : pystr) (c : contents) (k : nat) : exn + Response :=
  generate_content env (gen_calls w + (k - 1)) model c.

(** The trace left by [k] failed attempts, the first of them being
    iteration [i] of the loop. *)
Fixpoint failed_attempts (model : pystr) (c : contents) (k i : nat)
  : list event :=
  match k with
  | O => []
  | S k' =>
      EvGenerate model c :: EvSleep (2 * (Z.of_nat i + 1))
        :: failed_attempts model c k' (S i)
  end.

(** A page whose text is absent or blank. *)
Definition blank_page (t : option pystr) : bool := blank (opt_or t []).

(** What a page contributes: its text, stripped. *)
Definition page_text (t : option pystr) : pystr := strip (opt_or t []).

(** The parse of a document fails when the reader raises or when one of
    its pages does. *)
Definition parse_fails (env : Collaborators) (f : FileStorage) : Prop :=
  (exists e, PdfReader env (stream f) = inl e)
  \/ (exists pages e, PdfReader env (stream f) = inr pages /\ In (inl e) pages).

(** The fields of a request as the handler reads them. *)
Definition request_mode (req : Request) : pystr :=
  match form_mode req with Some m => m | None => lit "explain" end.

Definition request_question (req : Request) : pystr :=
  strip (opt_or (form_question req) []).

Definition blank_question (req : Request) : Prop :=
  match form_question req with
  | Some q => blank q = true
  | None => True
  end.

(** Step 2 of the handler went through, from world [w] to world [w1],
    leaving [notes]. *)
Definition pdf_stage (env : Collaborators) (req : Request)
    (w : World) (notes : pystr) (w1 : World) : Prop :=
  match attached (files_pdf req) with
  | Some f => extract_pdf_text env f w = (Ok notes, w1) /\ notes <> []
  | None => notes = [] /\ w1 = w
  end.

(** Steps 4 to 6 of the handler: compose, generate, format. *)
Definition answer_stage (env : Collaborators)
    (mode question notes : pystr) : M Rendered :=
  try_catch
    (gen_with_retry env TEXT_MODEL (CStr (build_prompt mode question notes)) 3)
    (fun final_text => ret (render_template (format_html final_text) []))
    (fun e => ret (render_template [] (lit "Gemini error: " ++ exn_str e))).

(** ** Module start-up *)

Definition missing_key : exn :=
  Exn (lit "RuntimeError")
      (lit "GEMINI_API_KEY not set. Run: set GEMINI_API_KEY=YOUR_KEY").

(** [API_KEY = os.getenv("GEMINI_API_KEY", "").strip()] and the check
    under it; [getenv] is the value of the variable, if it is set. *)
Definition load_api_key (getenv : option pystr) : result pystr :=
  let API_KEY := strip (match getenv with Some v => v | None => [] end) in
  if negb (truthy API_KEY) then Raise missing_key else Ok API_KEY.

(** ** Further vocabulary *)

(** A string that does not start with whitespace. *)
Definition head_nonspace (s : pystr) : Prop :=
  match s with
  | [] => True
  | ch :: _ => is_space ch = false
  end.

(** A string with no whitespace at either end. *)
Definition trimmed (s : pystr) : Prop :=
  head_nonspace s /\ head_nonspace (rev s).

(** Documents handed to [PdfReader] and pictures handed to [Image.open]. *)
Definition pdf_reads (w : World) : nat :=
  List.length
    (filter (fun ev => match ev with EvPdfReader _ => true | _ => false end) w).

Definition image_opens (w : World) : nat :=
  List.length
    (filter (fun ev => match ev with EvImageOpen _ => true | _ => false end) w).

(** A stretch of trace that holds at most [g] generation calls, [p]
    calls to the PDF library and [i] to the image library, and sleeps
    [s] seconds at most. *)
Definition bounded_by (g p i : nat) (s : Z) (w : World) : Prop :=
  (gen_calls w <= g)%nat /\ (pdf_reads w <= p)%nat
  /\ (image_opens w <= i)%nat /\ (0 <= total_sleep w <= s)%Z.

(** A request with one of its file fields left out. *)
Definition without_pdf (req : Request) : Request :=
  {| method := method req;
     form_mode := form_mode req;
     form_question := form_question req;
     files_pdf := None;
     files_image := files_image req |}.

Definition without_image (req : Request) : Request :=
  {| method := method req;
     form_mode := form_mode req;
     form_question := form_question req;
     files_pdf := files_pdf req;
     files_image := None |}.

(** A request with its mode and question replaced by what the handler
    reads from them. *)
Definition normalized (req : Request) : Request :=
  {| method := method req;
     form_mode := Some (request_mode req);
     form_question := Some (request_question req);
     files_pdf := files_pdf req;
     files_image := files_image req |}.

(** A file field that the browser sent without a file name. *)
Definition unnamed (f : FileStorage) : Prop :=
  match filename f with
  | Some name => name = []
  | None => True
  end.

(** ** Test doubles

    Collaborators with scripted answers, for running the program on
    concrete requests. *)

Definition service_down (n : nat) : exn :=
  Exn (lit "ServerError") (lit "503 UNAVAILABLE #" ++ [N.of_nat n + 48]%N).

(** The PDF library answers [pdf], the image library answers [img], and
    the generation service fails its first [failures] calls and answers
    [reply] from then on. *)
Definition stub (pdf : exn + list Page) (img : exn + Image)
    (failures : nat) (reply : option pystr) : Collaborators :=
  {| PdfReader := fun _ => pdf;
     Image_open_RGB := fun _ => img;
     generate_content := fun n _ _ =>
       if Nat.ltb n failures then inl (service_down n)
       else inr {| text := reply |} |}.

Definition no_pages : exn + list Page := inr [].

Definition a_picture : exn + Image :=
  inr {| im_mode := lit "RGB"; im_data := [] |}.

Definition upload (name : string) : FileStorage :=
  {| filename := Some (lit name); stream := [] |}.

Definition ask (question : string)
    (pdf image : option FileStorage) : Request :=
  {| method := POST;
     form_mode := Some (lit "explain");
     form_question := Some (lit question);
     files_pdf := pdf;
     files_image := image |}.

(** * Facts about the string operations *)

Section StringFacts.

Lemma eqb_eq (s t : pystr) : PyStr.eqb s t = true <-> s = t.
Proof.
  revert t; induction s as [|a s IH]; intros [|b t]; simpl;
    try (split; [discriminate | congruence]); try tauto.
  rewrite andb_true_iff, N.eqb_eq, IH.
  split; [intros [-> ->]; reflexivity | intros H; inversion H; auto].
Qed.

Lemma eqb_refl (s : pystr) : PyStr.eqb s s = true.
Proof. apply eqb_eq; reflexivity. Qed.

Lemma lstrip_nil_iff (s : pystr) : lstrip s = [] <-> blank s = true.
Proof.
  induction s as [|c s IH]; simpl; [tauto|].
  destruct (is_space c); simpl; [exact IH|].
  split; discriminate.
Qed.

Lemma lstrip_blank_head (s : pystr) c t :
  lstrip s = c :: t -> is_space c = false.
Proof.
  induction s as [|a s IH]; simpl; [discriminate|].
  destruct (is_space a) eqn:Ha; [exact IH|].
  intros H; inversion H; subst; exact Ha.
Qed.

Lemma blank_app (s t : pystr) : blank (s ++ t) = blank s && blank t.
Proof. apply forallb_app. Qed.

Lemma blank_rev (s : pystr) : blank (rev s) = blank s.
Proof.
  induction s as [|c s IH]; simpl; [reflexivity|].
  rewrite blank_app, IH; simpl. rewrite andb_true_r. apply andb_comm.
Qed.

Lemma lstrip_keeps_blank (s : pystr) :
  blank (lstrip s) = true -> blank s = true.
Proof.
  intros H. destruct (lstrip s) as [|c t] eqn:E.
  - apply lstrip_nil_iff; exact E.
  - apply lstrip_blank_head in E. simpl in H. rewrite E in H. discriminate.
Qed.

Lemma rev_nil_inv {A} (l : list A) : rev l = [] -> l = [].
Proof.
  intros H. rewrite <- (rev_involutive l), H. reflexivity.
Qed.

(** [s.strip()] is empty exactly when [s] is blank. *)
Lemma strip_nil_iff (s : pystr) : strip s = [] <-> blank s = true.
Proof.
  unfold strip, rstrip. split.
  - intros H. apply rev_nil_inv in H. apply lstrip_nil_iff in H.
    rewrite blank_rev in H. apply lstrip_keeps_blank; exact H.
  - intros H. apply lstrip_nil_iff in H. rewrite H. reflexivity.
Qed.

Lemma truthy_strip (s : pystr) : truthy (strip s) = negb (blank s).
Proof.
  destruct (blank s) eqn:B.
  - apply strip_nil_iff in B. rewrite B. reflexivity.
  - destruct (strip s) eqn:E; [|reflexivity].
    apply strip_nil_iff in E. congruence.
Qed.

Lemma truthy_false_iff (s : pystr) : truthy s = false <-> s = [].
Proof. destruct s; simpl; split; congruence. Qed.

Lemma or_else_nil (s : pystr) : or_else s [] = s.
Proof. destruct s; reflexivity. Qed.

(** Replacing a one-character [old] rewrites the string character by
    character. *)
Lemma replace_scan_single (x : N) (new : pystr) (fuel : nat) (s : pystr) :
  (List.length s <= fuel)%nat ->
  replace_scan fuel [x] new s
  = flat_map (fun c => if N.eqb c x then new else [c]) s.
Proof.
  revert s; induction fuel as [|fuel IH]; intros [|c s] Hlen; simpl in *;
    try reflexivity; try lia.
  rewrite (N.eqb_sym x c).
  destruct (N.eqb c x); simpl; rewrite IH by lia; reflexivity.
Qed.

Lemma replace_single (x : N) (new s : pystr) :
  replace [x] new s = flat_map (fun c => if N.eqb c x then new else [c]) s.
Proof. unfold replace. apply replace_scan_single. lia. Qed.

Lemma strip_prefix_length (old s rest : pystr) :
  strip_prefix old s = Some rest ->
  List.length s = (List.length old + List.length rest)%nat.
Proof.
  revert s; induction old as [|a old IH]; intros s H.
  - injection H as ->. reflexivity.
  - destruct s as [|b s]; [discriminate|]. simpl in H.
    destruct (N.eqb a b); [|discriminate].
    simpl. rewrite (IH _ H). reflexivity.
Qed.

(** The scan is over before the fuel is: any fuel from the length of the
    string on gives the same result. *)
Lemma replace_scan_fuel (old new : pystr) :
  old <> [] ->
  forall fuel fuel' s,
    (List.length s <= fuel)%nat -> (List.length s <= fuel')%nat ->
    replace_scan fuel old new s = replace_scan fuel' old new s.
Proof.
  intros Hold. induction fuel as [|fuel IH]; intros fuel' s H H'.
  - destruct s; [|simpl in H; lia]. destruct fuel'; reflexivity.
  - destruct s as [|c s]; [destruct fuel'; reflexivity|].
    destruct fuel' as [|fuel']; [simpl in H'; lia|].
    cbn [replace_scan].
    destruct (strip_prefix old (c :: s)) as [rest|] eqn:E.
    + apply strip_prefix_length in E.
      destruct old as [|a old]; [congruence|]. simpl in E, H, H'.
      rewrite (IH fuel' rest) by lia. reflexivity.
    + simpl in H, H'. rewrite (IH fuel' s) by lia. reflexivity.
Qed.

(** One scan step of the two-character replacement. *)
Lemma strip_prefix_pair (x y c : N) (s : pystr) :
  strip_prefix [x; y] (c :: s)
  = match s with
    | d :: s' => if N.eqb x c && N.eqb y d then Some s' else None
    | [] => None
    end.
Proof.
  simpl. destruct (N.eqb x c), s as [|d s']; reflexivity.
Qed.

(** Breaking each line of a text in which every double line break has
    been replaced by the paragraph marker gives the same result as
    breaking each line of the text itself. *)
Lemma break_each_after_paragraphs (fuel : nat) (s : pystr) :
  flat_map break_each (replace_scan fuel [nl; nl] paragraph_marker s)
  = flat_map break_each s.
Proof.
  revert s; induction fuel as [|fuel IH]; intros s; [reflexivity|].
  destruct s as [|c s]; [reflexivity|].
  cbn [replace_scan]. rewrite strip_prefix_pair.
  destruct s as [|d s'].
  - cbn [flat_map]. rewrite IH. reflexivity.
  - destruct (N.eqb nl c && N.eqb nl d) eqn:E.
    + apply andb_true_iff in E. destruct E as [Ec Ed].
      apply N.eqb_eq in Ec, Ed. subst c d.
      rewrite flat_map_app, IH. reflexivity.
    + cbn [flat_map]. rewrite IH. reflexivity.
Qed.

End StringFacts.

(** * PromptComposer *)

Section PromptComposer.

Lemma notes_block_cases (notes : pystr) :
  notes_block notes
  = if blank notes then notes_placeholder else notes_literal notes.
Proof.
  unfold notes_block. rewrite truthy_strip.
  destruct (blank notes); reflexivity.
Qed.

Lemma mode_line_unknown (mode : pystr) :
  known_mode mode = false -> mode_line mode = lit "Mode: EXPLAIN." ++ [nl].
Proof.
  unfold known_mode, known_modes, mode_line, mode_table. cbn [existsb dict_get].
  intros H. repeat (apply orb_false_iff in H; destruct H as [?E H]).
  rewrite E, E0, E1. reflexivity.
Qed.

Lemma eqb_sym (s t : pystr) : PyStr.eqb s t = PyStr.eqb t s.
Proof.
  revert t; induction s as [|a s IH]; intros [|b t]; simpl; try reflexivity.
  rewrite IH, N.eqb_sym. reflexivity.
Qed.

Lemma mode_line_instruction (mode : pystr) :
  mode_line mode = instruction_line mode.
Proof.
  unfold mode_line, mode_table, instruction_line. cbn [dict_get].
  rewrite (eqb_sym (lit "explain")), (eqb_sym (lit "exam")),
    (eqb_sym (lit "revision")).
  reflexivity.
Qed.

Lemma base_preamble : base = preamble.
Proof. reflexivity. Qed.

(** C2.  A prompt is, in this order and with nothing else: the constant
    preamble (use only the provided notes, the refusal phrase with a
    short hint, headings and bullets), then the instruction line of the
    mode, then the notes block, then the question with its ["ANSWER:"]
    cue.  The notes block is the ["(none)"] placeholder when the notes
    are empty or whitespace only, and otherwise holds the notes in
    full. *)
Theorem build_prompt_four_sections (mode question notes : pystr) :
  build_prompt mode question notes
  = preamble
    ++ instruction_line mode
    ++ (if blank notes then notes_placeholder else notes_literal notes)
    ++ question_section question
  /\ contains (lit "Use ONLY the provided notes.") preamble = true
  /\ contains (lit "I can't find this in the provided notes.") preamble = true
  /\ contains (lit "short general hint") preamble = true
  /\ contains (lit "headings and bullet points") preamble = true
  /\ contains (lit "(none)") notes_placeholder = true
  /\ contains (lit "ANSWER:") (question_section question) = true.
Proof.
  split.
  - unfold build_prompt, question_section.
    rewrite notes_block_cases, mode_line_instruction, base_preamble.
    reflexivity.
  - repeat split; try reflexivity.
    unfold question_section.
    assert (H : forall needle pre s,
               contains needle s = true -> contains needle (pre ++ s) = true).
    { clear. intros needle pre s Hs. induction pre as [|a pre IH];
        [exact Hs|].
      cbn [app contains]. rewrite IH.
      destruct (strip_prefix needle (a :: pre ++ s)); reflexivity. }
    change ([nl] ++ lit "QUESTION:" ++ [nl] ++ question
            ++ [nl; nl] ++ lit "ANSWER:" ++ [nl])
      with (([nl] ++ lit "QUESTION:" ++ [nl]) ++ question
            ++ [nl; nl] ++ lit "ANSWER:" ++ [nl]).
    apply H. apply H. reflexivity.
Qed.

(** C3, as stated, fails: the mode ["quiz"] is none of the three named
    modes, and its instruction line is not the line of ["explain"]. *)
Lemma unknown_mode_not_explain_line :
  ~ (forall mode : pystr,
        known_mode mode = false -> mode_line mode = mode_line (lit "explain")).
Proof.
  intros H. specialize (H (lit "quiz") eq_refl). vm_compute in H. discriminate.
Qed.

(** C3, amended.  A mode outside the three named ones gets the fixed
    line ["Mode: EXPLAIN."], which carries the label of the ["explain"]
    line without its sentence, so the two lines differ. *)
Theorem unknown_mode_default_line (mode : pystr) :
  known_mode mode = false ->
  mode_line mode = lit "Mode: EXPLAIN." ++ [nl]
  /\ mode_line (lit "explain")
     = lit "Mode: EXPLAIN."
       ++ lit " Explain simply and give one small example." ++ [nl]
  /\ mode_line mode <> mode_line (lit "explain").
Proof.
  intros H. rewrite (mode_line_unknown _ H).
  split; [reflexivity|]. split; [reflexivity|].
  vm_compute. discriminate.
Qed.

Lemma unknown_mode_default_line_witness :
  known_mode (lit "quiz") = false
  /\ mode_line (lit "quiz") = lit "Mode: EXPLAIN." ++ [nl].
Proof.
  split; [reflexivity|].
  apply (unknown_mode_default_line (lit "quiz")). reflexivity.
Defined.

End PromptComposer.

(** * ResponseFormatter *)

Section ResponseFormatter.

Lemma replace_nil (old new : pystr) : old <> [] -> replace old new [] = [].
Proof. destruct old; [congruence | reflexivity]. Qed.

Lemma format_html_passes (text : pystr) :
  format_html text
  = replace [nl] line_marker
      (replace [nl; nl] paragraph_marker (replace [cr; nl] [nl] text)).
Proof. destruct text; reflexivity. Qed.

Lemma line_breaks_after_paragraphs (s : pystr) :
  replace [nl] line_marker (replace [nl; nl] paragraph_marker s)
  = replace [nl] line_marker s.
Proof.
  rewrite !replace_single. unfold replace.
  apply break_each_after_paragraphs.
Qed.





End ResponseFormatter.

(** * GenerationClient *)

Section GenerationClient.

Variable env : Collaborators.
Variable model : pystr.
Variable c : contents.

Lemma gen_calls_app (w w' : World) :
  gen_calls (w ++ w') = (gen_calls w + gen_calls w')%nat.
Proof. unfold gen_calls. rewrite filter_app, length_app. reflexivity. Qed.

Lemma sleeps_app (w w' : World) : sleeps (w ++ w') = sleeps w ++ sleeps w'.
Proof.
  induction w as [|ev w IH]; [reflexivity|].
  destruct ev; simpl; rewrite IH; reflexivity.
Qed.

Lemma gen_calls_failed_attempts (k i : nat) :
  gen_calls (failed_attempts model c k i) = k.
Proof.
  revert i; induction k as [|k IH]; intros i; [reflexivity|].
  change (S (gen_calls (failed_attempts model c k (S i))) = S k).
  rewrite IH. reflexivity.
Qed.

(** One iteration of the loop, by the outcome of its call. *)
Lemma retry_loop_step_ok (remaining i : nat) last w resp :
  generate_content env (gen_calls w) model c = inr resp ->
  retry_loop env model c (S remaining) i last w
  = (Ok (response_text resp), w ++ [EvGenerate model c]).
Proof.
  intros H. cbn [retry_loop]. unfold try_catch, call_generate_content.
  unfold bind, emit. rewrite H. cbn [lift_sum ret].
  unfold response_text. destruct (text resp) as [t|]; [|reflexivity].
  cbn [opt_or]. rewrite or_else_nil. reflexivity.
Qed.

Lemma retry_loop_step_fail (remaining i : nat) last w e :
  generate_content env (gen_calls w) model c = inl e ->
  retry_loop env model c (S remaining) i last w
  = retry_loop env model c remaining (S i) (Some e)
      (w ++ [EvGenerate model c; EvSleep (2 * (Z.of_nat i + 1))]).
Proof.
  intros H. cbn [retry_loop]. unfold try_catch, call_generate_content.
  unfold bind, emit, sleep, emit. rewrite H. cbn [lift_sum raise].
  rewrite <- app_assoc. reflexivity.
Qed.

Lemma gen_calls_after_fail (w : World) (z : Z) (j : nat) :
  (gen_calls (w ++ [EvGenerate model c; EvSleep z]) + j
   = gen_calls w + S j)%nat.
Proof. rewrite gen_calls_app. cbn. lia. Qed.

(** The loop succeeds at the first call that does, after [k] failures. *)
Lemma retry_loop_success_after (k : nat) :
  forall (remaining i : nat) last w resp,
    (k < remaining)%nat ->
    (forall j, (j < k)%nat ->
       exists e, generate_content env (gen_calls w + j) model c = inl e) ->
    generate_content env (gen_calls w + k) model c = inr resp ->
    retry_loop env model c remaining i last w
    = (Ok (response_text resp),
       w ++ failed_attempts model c k i ++ [EvGenerate model c]).
Proof.
  induction k as [|k IH]; intros remaining i last w resp Hk Hfail Hok;
    destruct remaining as [|remaining]; try lia.
  - rewrite Nat.add_0_r in Hok. apply retry_loop_step_ok; exact Hok.
  - destruct (Hfail 0%nat ltac:(lia)) as [e He].
    rewrite Nat.add_0_r in He.
    rewrite (retry_loop_step_fail _ _ _ _ He).
    rewrite (IH remaining (S i) (Some e) _ resp).
    + cbn [failed_attempts]. rewrite <- app_assoc. reflexivity.
    + lia.
    + intros j Hj. rewrite gen_calls_after_fail. apply Hfail. lia.
    + rewrite gen_calls_after_fail. exact Hok.
Qed.

(** When every call fails the loop runs to its end and raises the
    failure of the last call. *)
Lemma retry_loop_exhausted (remaining : nat) :
  forall (i : nat) last w e,
    (forall j, (j < remaining)%nat ->
       exists e', generate_content env (gen_calls w + j) model c = inl e') ->
    generate_content env (gen_calls w + remaining) model c = inl e ->
    retry_loop env model c (S remaining) i last w
    = (Raise e, w ++ failed_attempts model c (S remaining) i).
Proof.
  induction remaining as [|remaining IH]; intros i last w e Hfail Hlast.
  - rewrite Nat.add_0_r in Hlast.
    rewrite (retry_loop_step_fail _ _ _ _ Hlast). reflexivity.
  - destruct (Hfail 0%nat ltac:(lia)) as [e0 He0].
    rewrite Nat.add_0_r in He0.
    rewrite (retry_loop_step_fail _ _ _ _ He0).
    rewrite (IH (S i) (Some e0) _ e).
    + rewrite <- app_assoc. reflexivity.
    + intros j Hj. rewrite gen_calls_after_fail. apply Hfail. lia.
    + rewrite gen_calls_after_fail. exact Hlast.
Qed.

(** The loop only ever appends to the trace, and makes at most
    [remaining] calls. *)
Lemma retry_loop_calls_bound (remaining : nat) :
  forall (i : nat) last w,
    (gen_calls (snd (retry_loop env model c remaining i last w))
     <= gen_calls w + remaining)%nat.
Proof.
  induction remaining as [|remaining IH]; intros i last w.
  - destruct last; simpl; lia.
  - destruct (generate_content env (gen_calls w) model c) as [e|resp] eqn:E.
    + rewrite (retry_loop_step_fail _ _ _ _ E).
      etransitivity; [apply IH|]. rewrite gen_calls_app. cbn. lia.
    + rewrite (retry_loop_step_ok _ _ _ _ E). cbn [snd].
      rewrite gen_calls_app. cbn. lia.
Qed.

(** The four ways a call with three tries can go. *)
Lemma gen_with_retry_3_cases (w : World) :
  (exists resp k,
      (k < 3)%nat
      /\ gen_with_retry env model c 3 w
         = (Ok (response_text resp),
            w ++ failed_attempts model c k 0 ++ [EvGenerate model c]))
  \/ (exists e,
         attempt env w model c 3 = inl e
         /\ gen_with_retry env model c 3 w
            = (Raise e, w ++ failed_attempts model c 3 0)).
Proof.
  unfold gen_with_retry, attempt.
  destruct (generate_content env (gen_calls w + 0) model c) as [e1|r1] eqn:E1.
  2:{ left. exists r1, 0%nat. split; [lia|].
      apply retry_loop_success_after; [lia | intros; lia | exact E1]. }
  destruct (generate_content env (gen_calls w + 1) model c) as [e2|r2] eqn:E2.
  2:{ left. exists r2, 1%nat. split; [lia|].
      apply retry_loop_success_after; [lia | | exact E2].
      intros j Hj. replace j with 0%nat by lia. eauto. }
  destruct (generate_content env (gen_calls w + 2) model c) as [e3|r3] eqn:E3.
  2:{ left. exists r3, 2%nat. split; [lia|].
      apply retry_loop_success_after; [lia | | exact E3].
      intros j Hj.
      destruct j as [|[|j]]; [eauto | eauto | lia]. }
  right. exists e3. split; [exact E3|].
  apply retry_loop_exhausted; [|exact E3].
  intros j Hj. destruct j as [|[|j]]; [eauto | eauto | lia].
Qed.

(** A call with three tries raises only after three failed attempts. *)
Lemma gen_with_retry_3_raises (w w2 : World) (e : exn) :
  gen_with_retry env model c 3 w = (Raise e, w2) ->
  w2 = w ++ failed_attempts model c 3 0.
Proof.
  intros H.
  destruct (gen_with_retry_3_cases w)
    as [(resp & k & _ & E) | (e' & _ & E)]; rewrite E in H.
  - discriminate H.
  - injection H as _ <-. reflexivity.
Qed.

End GenerationClient.

Section GenerationClientClaims.

Variable env : Collaborators.
Variable model : pystr.
Variable c : contents.

(** C1.  A call of the generation client makes at most three attempts.
    If attempt [k] is the first to succeed, the call returns the text of
    that attempt and has made exactly [k] attempts; if all three fail,
    the call raises the failure of the third attempt as it is. *)
Theorem gen_with_retry_three_attempts (w : World) :
  let out := gen_with_retry env model c 3 w in
  (gen_calls (snd out) <= gen_calls w + 3)%nat
  /\ (forall k resp,
         (1 <= k <= 3)%nat ->
         (forall j, (1 <= j < k)%nat ->
            exists e, attempt env w model c j = inl e) ->
         attempt env w model c k = inr resp ->
         fst out = Ok (response_text resp)
         /\ gen_calls (snd out) = (gen_calls w + k)%nat)
  /\ (forall e1 e2 e3,
         attempt env w model c 1 = inl e1 ->
         attempt env w model c 2 = inl e2 ->
         attempt env w model c 3 = inl e3 ->
         fst out = Raise e3
         /\ gen_calls (snd out) = (gen_calls w + 3)%nat).
Proof.
  cbv zeta. split; [apply retry_loop_calls_bound|]. split.
  - intros k resp Hk Hfail Hok. unfold gen_with_retry, attempt in *.
    rewrite (retry_loop_success_after env model c (k := k - 1)
               (remaining := 3) 0 None w (resp := resp)); try lia.
    + cbn [fst snd]. split; [reflexivity|].
      rewrite !gen_calls_app, gen_calls_failed_attempts. cbn. lia.
    + intros j Hj. destruct (Hfail (S j) ltac:(lia)) as [e He].
      exists e. rewrite <- He. f_equal. lia.
    + exact Hok.
  - intros e1 e2 e3 H1 H2 H3. unfold gen_with_retry, attempt in *.
    rewrite (retry_loop_exhausted env model c (remaining := 2) 0 None w (e := e3)).
    + cbn [fst snd]. split; [reflexivity|].
      rewrite gen_calls_app, gen_calls_failed_attempts. reflexivity.
    + intros j Hj. destruct j as [|[|j]]; [eauto | eauto | lia].
    + exact H3.
Qed.

(** C8.  When all three attempts fail, the client sleeps 2, then 4, then
    6 seconds before it raises, 12 in all; no call of the client sleeps
    longer than that. *)
Theorem gen_with_retry_waits (w : World) :
  (forall e1 e2 e3,
      attempt env w model c 1 = inl e1 ->
      attempt env w model c 2 = inl e2 ->
      attempt env w model c 3 = inl e3 ->
      exists w',
        gen_with_retry env model c 3 w = (Raise e3, w ++ w')
        /\ sleeps w' = [2 * 1; 2 * 2; 2 * 3]%Z
        /\ total_sleep w' = 12%Z)
  /\ (exists w',
         snd (gen_with_retry env model c 3 w) = w ++ w'
         /\ (0 <= total_sleep w' <= 12)%Z).
Proof.
  split.
  - intros e1 e2 e3 H1 H2 H3. unfold attempt in *.
    exists (failed_attempts model c 3 0). split; [|split; reflexivity].
    apply retry_loop_exhausted; [|exact H3].
    intros j Hj. destruct j as [|[|j]]; [eauto | eauto | lia].
  - destruct (gen_with_retry_3_cases env model c w)
      as [(resp & k & Hk & E) | (e & _ & E)]; rewrite E; cbn [snd].
    + exists (failed_attempts model c k 0 ++ [EvGenerate model c]).
      split; [reflexivity|].
      destruct k as [|[|[|k]]]; try lia; vm_compute; split; congruence.
    + exists (failed_attempts model c 3 0).
      split; [reflexivity|]. vm_compute; split; congruence.
Qed.

End GenerationClientClaims.

Lemma gen_with_retry_three_attempts_witness :
  let env := stub no_pages a_picture 1 (Some (lit "osmosis is ...")) in
  fst (gen_with_retry env TEXT_MODEL (CStr (lit "q")) 3 [])
  = Ok (lit "osmosis is ...")
  /\ gen_calls (snd (gen_with_retry env TEXT_MODEL (CStr (lit "q")) 3 []))
     = 2%nat.
Proof.
  cbv zeta.
  refine (proj1 (proj2 (gen_with_retry_three_attempts
            (stub no_pages a_picture 1 (Some (lit "osmosis is ...")))
            TEXT_MODEL (CStr (lit "q")) []))
            2%nat {| text := Some (lit "osmosis is ...") |} _ _ _).
  - lia.
  - intros j Hj. replace j with 1%nat by lia. eexists. reflexivity.
  - reflexivity.
Defined.

Lemma gen_with_retry_waits_witness :
  let env := stub no_pages a_picture 3 None in
  exists w',
    gen_with_retry env TEXT_MODEL (CStr (lit "q")) 3 []
    = (Raise (service_down 2), [] ++ w')
    /\ sleeps w' = [2; 4; 6]%Z
    /\ total_sleep w' = 12%Z.
Proof.
  cbv zeta.
  apply (proj1 (gen_with_retry_waits (stub no_pages a_picture 3 None)
                  TEXT_MODEL (CStr (lit "q")) [])
           (service_down 0) (service_down 1) (service_down 2));
    reflexivity.
Defined.

(** * TextExtractor *)

Section TextExtractor.

Variable env : Collaborators.

(** The page loop leaves the world alone; over pages that all answer, it
    collects the non-empty stripped texts in page order. *)
Lemma extract_pages_texts (texts : list (option pystr)) :
  forall parts w,
    extract_pages (List.map inr texts) parts w
    = (Ok (parts ++ filter truthy (List.map page_text texts)), w).
Proof.
  induction texts as [|t texts IH]; intros parts w.
  - simpl. rewrite app_nil_r. reflexivity.
  - cbn [List.map extract_pages]. unfold bind. cbn [lift_sum ret].
    cbn [filter]. fold (page_text t).
    destruct (truthy (page_text t)).
    + rewrite IH, <- app_assoc. reflexivity.
    + apply IH.
Qed.

Lemma extract_pages_raises (pages : list Page) (e : exn) :
  In (inl e) pages ->
  forall parts w, exists e', extract_pages pages parts w = (Raise e', w).
Proof.
  induction pages as [|page pages IH]; intros Hin parts w; [destruct Hin|].
  cbn [extract_pages]. unfold bind.
  destruct page as [e0|t]; cbn [lift_sum raise ret].
  - eauto.
  - destruct Hin as [Heq|Hin]; [discriminate|].
    destruct (truthy (strip (opt_or t []))); apply IH; exact Hin.
Qed.

Lemma extract_pages_world (pages : list Page) :
  forall parts w, snd (extract_pages pages parts w) = w.
Proof.
  induction pages as [|page pages IH]; intros parts w; [reflexivity|].
  cbn [extract_pages]. unfold bind.
  destruct page as [e0|t]; cbn [lift_sum raise ret]; [reflexivity|].
  destruct (truthy (strip (opt_or t []))); apply IH.
Qed.

(** The extractor by cases on what the PDF library does. *)
Lemma extract_pdf_text_reader_fails (f : FileStorage) w e :
  PdfReader env (stream f) = inl e ->
  extract_pdf_text env f w = (Ok [], w ++ [EvPdfReader (stream f)]).
Proof.
  intros H. unfold extract_pdf_text, try_catch, call_PdfReader, bind, emit.
  rewrite H. reflexivity.
Qed.

Lemma extract_pdf_text_pages (f : FileStorage) w pages :
  PdfReader env (stream f) = inr pages ->
  extract_pdf_text env f w
  = (Ok match extract_pages pages [] (w ++ [EvPdfReader (stream f)]) with
        | (Ok parts, _) => strip (join [nl; nl] parts)
        | (Raise _, _) => []
        end,
     w ++ [EvPdfReader (stream f)]).
Proof.
  intros H. unfold extract_pdf_text, try_catch, call_PdfReader, bind, emit.
  rewrite H. cbn [lift_sum ret].
  pose proof (extract_pages_world pages [] (w ++ [EvPdfReader (stream f)])) as Hw.
  destruct (extract_pages pages [] (w ++ [EvPdfReader (stream f)]))
    as [[parts|e] w'].
  all: cbn [snd] in Hw; subst w'; reflexivity.
Qed.

(** The extractor always returns, having called the PDF library once. *)
Lemma extract_pdf_text_returns (f : FileStorage) w :
  exists s, extract_pdf_text env f w = (Ok s, w ++ [EvPdfReader (stream f)]).
Proof.
  destruct (PdfReader env (stream f)) as [e|pages] eqn:E.
  - eexists. apply (extract_pdf_text_reader_fails _ _ E).
  - eexists. apply (extract_pdf_text_pages _ _ E).
Qed.

Lemma blank_pages_no_text (texts : list (option pystr)) :
  forallb blank_page texts = true ->
  filter truthy (List.map page_text texts) = [].
Proof.
  induction texts as [|t texts IH]; [reflexivity|].
  cbn [forallb List.map filter]. intros H.
  apply andb_true_iff in H. destruct H as [Ht Hrest].
  unfold blank_page in Ht. apply strip_nil_iff in Ht.
  unfold page_text. rewrite Ht. cbn [truthy]. apply IH; exact Hrest.
Qed.

(** C5.  The extractor never raises: it returns a string whatever the
    document is.  If the parse fails, in the reader or on a page, the
    string is empty.  If every page answers, the string is the stripped
    texts of the pages, without the empty ones, joined by a blank line
    and stripped; it is empty when every page is blank. *)
Theorem extract_pdf_text_total (f : FileStorage) (w : World) :
  exists s,
    extract_pdf_text env f w = (Ok s, w ++ [EvPdfReader (stream f)])
    /\ (parse_fails env f -> s = [])
    /\ (forall texts,
           PdfReader env (stream f) = inr (List.map inr texts) ->
           s = strip (join [nl; nl] (filter truthy (List.map page_text texts)))
           /\ (forallb blank_page texts = true -> s = [])).
Proof.
  destruct (extract_pdf_text_returns f w) as [s Hs].
  exists s. split; [exact Hs|]. split.
  - intros [[e He] | (pages & e & Hp & Hin)].
    + rewrite (extract_pdf_text_reader_fails _ _ He) in Hs. congruence.
    + rewrite (extract_pdf_text_pages _ _ Hp) in Hs.
      destruct (extract_pages_raises _ _ Hin [] (w ++ [EvPdfReader (stream f)]))
        as [e' He'].
      rewrite He' in Hs. congruence.
  - intros texts Hp.
    rewrite (extract_pdf_text_pages _ _ Hp), extract_pages_texts in Hs.
    cbn [app] in Hs.
    assert (Es : s = strip (join [nl; nl] (filter truthy (List.map page_text texts))))
      by congruence.
    split; [exact Es|].
    intros Hb. rewrite Es, (blank_pages_no_text _ Hb). reflexivity.
Qed.

End TextExtractor.

Lemma extract_pdf_text_total_witness :
  let env :=
    stub (inr [inr (Some (lit " Osmosis ")); inr None; inr (Some (lit "Cells"))])
         a_picture 0 None in
  exists s,
    extract_pdf_text env (upload "notes.pdf") [] = (Ok s, [EvPdfReader []])
    /\ s = lit "Osmosis" ++ [nl; nl] ++ lit "Cells".
Proof.
  cbv zeta.
  destruct (extract_pdf_text_total
              (stub (inr [inr (Some (lit " Osmosis ")); inr None;
                          inr (Some (lit "Cells"))]) a_picture 0 None)
              (upload "notes.pdf") []) as (s & Hs & _ & Hpages).
  exists s. split; [exact Hs|].
  apply (Hpages [Some (lit " Osmosis "); None; Some (lit "Cells")]).
  reflexivity.
Defined.

(** * RequestOrchestrator *)

Section RequestOrchestrator.

Variable env : Collaborators.

Lemma blank_question_iff (req : Request) :
  blank_question req <-> request_question req = [].
Proof.
  unfold blank_question, request_question.
  destruct (form_question req) as [q|]; cbn [opt_or].
  - rewrite or_else_nil. symmetry. apply strip_nil_iff.
  - split; reflexivity.
Qed.

Lemma asked_truthy (req : Request) :
  ~ blank_question req -> truthy (request_question req) = true.
Proof.
  intros H. destruct (request_question req) eqn:E; [|reflexivity].
  exfalso. apply H, blank_question_iff. exact E.
Qed.

(** What is left of the handler once the question is accepted and step 2
    has gone through. *)
Lemma home_after_pdf (req : Request) (w w1 : World) (notes : pystr) :
  method req = POST ->
  ~ blank_question req ->
  pdf_stage env req w notes w1 ->
  home env req w
  = match attached (files_image req) with
    | Some image =>
        match ocr_image_with_gemini env image w1 with
        | (Ok extracted, w2) =>
            answer_stage env (request_mode req) (request_question req)
              (if truthy extracted then
                 if truthy notes
                 then strip (notes ++ [nl; nl] ++ extracted)
                 else extracted
               else notes) w2
        | (Raise e, w2) =>
            (Ok (render_template [] (lit "Image OCR failed: " ++ exn_str e)), w2)
        end
    | None =>
        answer_stage env (request_mode req) (request_question req) notes w1
    end.
Proof.
  intros Hpost Hq Hpdf. apply asked_truthy in Hq.
  unfold home. rewrite Hpost.
  fold (request_question req). fold (request_mode req). rewrite Hq.
  cbn [negb]. unfold pdf_stage in Hpdf.
  destruct (attached (files_pdf req)) as [pdf|].
  - destruct Hpdf as [Hex Hne]. unfold bind, try_catch. rewrite Hex.
    destruct notes as [|n0 notes0]; [congruence|]. cbn [truthy negb ret].
    destruct (attached (files_image req)) as [image|]; [|reflexivity].
    destruct (ocr_image_with_gemini env image w1) as [[extracted|e] w2];
      [|reflexivity].
    destruct (truthy extracted); reflexivity.
  - destruct Hpdf as [-> ->]. unfold bind, try_catch. cbn [ret].
    destruct (attached (files_image req)) as [image|]; [|reflexivity].
    destruct (ocr_image_with_gemini env image w) as [[extracted|e] w2];
      [|reflexivity].
    destruct (truthy extracted); reflexivity.
Qed.

(** C4.  A submitted form whose question is missing, empty or whitespace
    only is answered with the validation message, and the world is left
    as it was: no call to the PDF library, the image library or the
    generation service. *)
Theorem home_blank_question (req : Request) (w : World) :
  method req = POST ->
  blank_question req ->
  home env req w = (Ok (render_template [] msg_no_question), w).
Proof.
  intros Hpost Hq. apply blank_question_iff in Hq.
  unfold home. rewrite Hpost. fold (request_question req). rewrite Hq.
  reflexivity.
Qed.

(** C6.  With a question asked and a PDF attached from which no text
    comes out, the handler answers with the unreadable-document message
    right after the extraction: the image, if any, is not looked at and
    the generation service is not called. *)
Theorem home_unreadable_pdf (req : Request) (w : World) (f : FileStorage) :
  method req = POST ->
  ~ blank_question req ->
  attached (files_pdf req) = Some f ->
  fst (extract_pdf_text env f w) = Ok [] ->
  home env req w
  = (Ok (render_template [] msg_scanned_pdf), w ++ [EvPdfReader (stream f)])
  /\ gen_calls (snd (home env req w)) = gen_calls w.
Proof.
  intros Hpost Hq Hpdf Hex. apply asked_truthy in Hq.
  destruct (extract_pdf_text_returns env f w) as [s Hs].
  rewrite Hs in Hex. cbn [fst] in Hex. injection Hex as ->.
  assert (E : home env req w
              = (Ok (render_template [] msg_scanned_pdf),
                 w ++ [EvPdfReader (stream f)])).
  { unfold home. rewrite Hpost. fold (request_question req). rewrite Hq.
    cbn [negb]. rewrite Hpdf. unfold bind. rewrite Hs. reflexivity. }
  split; [exact E|]. rewrite E. cbn [snd].
  rewrite gen_calls_app. cbn. lia.
Qed.

(** C7.  With a question asked, step 2 gone through and an image
    attached that decodes, a failure raised by the generation client
    during transcription comes out of the transcriber as it is, and the
    handler answers with that failure's message behind
    ["Image OCR failed: "], in the world the client left: after the
    image is opened the trace holds the three failed transcription
    attempts and nothing else, so no prompt is composed and no answer
    is generated. *)
Theorem home_transcription_failure (req : Request) (w w1 w2 : World)
    (notes : pystr) (f : FileStorage) (img : Image) (e : exn) :
  method req = POST ->
  ~ blank_question req ->
  pdf_stage env req w notes w1 ->
  attached (files_image req) = Some f ->
  Image_open_RGB env (stream f) = inr img ->
  gen_with_retry env VISION_MODEL (CList [PText ocr_prompt; PImage img]) 3
    (w1 ++ [EvImageOpen (stream f)]) = (Raise e, w2) ->
  ocr_image_with_gemini env f w1 = (Raise e, w2)
  /\ home env req w
     = (Ok (render_template [] (lit "Image OCR failed: " ++ exn_str e)), w2)
  /\ w2 = w1 ++ [EvImageOpen (stream f)]
            ++ failed_attempts VISION_MODEL
                 (CList [PText ocr_prompt; PImage img]) 3 0.
Proof.
  intros Hpost Hq Hpdf Himg Hopen Hgen.
  assert (Hocr : ocr_image_with_gemini env f w1 = (Raise e, w2)).
  { unfold ocr_image_with_gemini, call_Image_open, bind, emit.
    rewrite Hopen. cbn [lift_sum ret]. rewrite Hgen. reflexivity. }
  split; [exact Hocr|]. split.
  - rewrite (@home_after_pdf req w w1 notes Hpost Hq Hpdf), Himg, Hocr.
    reflexivity.
  - apply gen_with_retry_3_raises in Hgen. rewrite Hgen, <- app_assoc.
    reflexivity.
Qed.

(** C10.  With a question asked, step 2 gone through and an image
    attached whose transcription returns the empty string, the handler
    goes on to compose the prompt from the notes it had, unchanged, and
    to generate the answer; no transcription error is reported. *)
Theorem home_empty_transcription (req : Request) (w w1 w2 : World)
    (notes : pystr) (f : FileStorage) :
  method req = POST ->
  ~ blank_question req ->
  pdf_stage env req w notes w1 ->
  attached (files_image req) = Some f ->
  ocr_image_with_gemini env f w1 = (Ok [], w2) ->
  home env req w
  = answer_stage env (request_mode req) (request_question req) notes w2.
Proof.
  intros Hpost Hq Hpdf Himg Hocr.
  rewrite (@home_after_pdf req w w1 notes Hpost Hq Hpdf), Himg, Hocr. reflexivity.
Qed.

End RequestOrchestrator.

(** ** The handler on concrete requests *)

Lemma home_blank_question_witness :
  home (stub no_pages a_picture 0 None)
       (ask "  " (Some (upload "notes.pdf")) (Some (upload "page.png"))) []
  = (Ok (render_template [] msg_no_question), []).
Proof.
  apply (@home_blank_question (stub no_pages a_picture 0 None)
           (ask "  " (Some (upload "notes.pdf")) (Some (upload "page.png")))
           []).
  - reflexivity.
  - reflexivity.
Defined.

Lemma home_unreadable_pdf_witness :
  let env := stub (inr [inr (Some (lit "  ")); inr None]) a_picture 0 None in
  let req := ask "What is osmosis?"
               (Some (upload "scan.pdf")) (Some (upload "page.png")) in
  home env req []
  = (Ok (render_template [] msg_scanned_pdf), [EvPdfReader []])
  /\ gen_calls (snd (home env req [])) = 0%nat.
Proof.
  cbv zeta.
  apply (@home_unreadable_pdf
           (stub (inr [inr (Some (lit "  ")); inr None]) a_picture 0 None)
           (ask "What is osmosis?"
              (Some (upload "scan.pdf")) (Some (upload "page.png")))
           [] (upload "scan.pdf")).
  - reflexivity.
  - intros H. vm_compute in H. discriminate H.
  - reflexivity.
  - reflexivity.
Defined.

Lemma home_transcription_failure_witness :
  let env := stub no_pages a_picture 3 (Some (lit "never seen")) in
  let req := ask "What is rust?" None (Some (upload "page.png")) in
  let w2 :=
    [EvImageOpen []]
    ++ failed_attempts VISION_MODEL
         (CList [PText ocr_prompt;
                 PImage {| im_mode := lit "RGB"; im_data := [] |}]) 3 0 in
  ocr_image_with_gemini env (upload "page.png") [] = (Raise (service_down 2), w2)
  /\ home env req []
     = (Ok (render_template []
              (lit "Image OCR failed: " ++ exn_str (service_down 2))), w2).
Proof.
  cbv zeta.
  refine ((fun H => conj (proj1 H) (proj1 (proj2 H))) _).
  apply (@home_transcription_failure
           (stub no_pages a_picture 3 (Some (lit "never seen")))
           (ask "What is rust?" None (Some (upload "page.png")))
           [] [] _ [] (upload "page.png")
           {| im_mode := lit "RGB"; im_data := [] |} (service_down 2)).
  - reflexivity.
  - intros H. vm_compute in H. discriminate H.
  - split; reflexivity.
  - reflexivity.
  - reflexivity.
  - reflexivity.
Defined.

Lemma home_empty_transcription_witness :
  let env := stub (inr [inr (Some (lit " Rust is iron oxide. "))])
                  a_picture 0 (Some (lit "  ")) in
  let req := ask "What is rust?"
               (Some (upload "notes.pdf")) (Some (upload "page.png")) in
  let w2 :=
    [EvPdfReader []; EvImageOpen [];
     EvGenerate VISION_MODEL
       (CList [PText ocr_prompt;
               PImage {| im_mode := lit "RGB"; im_data := [] |}])] in
  home env req []
  = answer_stage env (lit "explain") (lit "What is rust?")
      (lit "Rust is iron oxide.") w2.
Proof.
  cbv zeta.
  apply (@home_empty_transcription
           (stub (inr [inr (Some (lit " Rust is iron oxide. "))])
                 a_picture 0 (Some (lit "  ")))
           (ask "What is rust?"
              (Some (upload "notes.pdf")) (Some (upload "page.png")))
           [] [EvPdfReader []] _ (lit "Rust is iron oxide.")
           (upload "page.png")).
  - reflexivity.
  - intros H. vm_compute in H. discriminate H.
  - split; [reflexivity | discriminate].
  - reflexivity.
  - reflexivity.
Defined.

(** * Further properties of the program *)

(** ** Strings without whitespace at the ends *)

Section TrimmedStrings.

Lemma lstrip_fixed (s : pystr) : head_nonspace s -> lstrip s = s.
Proof.
  destruct s as [|ch s]; [reflexivity|]. simpl. intros ->. reflexivity.
Qed.

Lemma lstrip_head_nonspace (s : pystr) : head_nonspace (lstrip s).
Proof.
  induction s as [|ch s IH]; simpl; [exact I|].
  destruct (is_space ch) eqn:E; [exact IH | exact E].
Qed.

Lemma lstrip_suffix (s : pystr) : exists p, s = p ++ lstrip s.
Proof.
  induction s as [|ch s [p IH]]; [exists []; reflexivity|].
  simpl. destruct (is_space ch).
  - exists (ch :: p). simpl. rewrite <- IH. reflexivity.
  - exists []. reflexivity.
Qed.

Lemma head_nonspace_app (s t : pystr) :
  s <> [] -> head_nonspace s -> head_nonspace (s ++ t).
Proof. destruct s; [congruence | intros _ H; exact H]. Qed.

Lemma head_nonspace_prefix (s t : pystr) :
  head_nonspace (s ++ t) -> head_nonspace s.
Proof. destruct s; [intros; exact I | intros H; exact H]. Qed.

Lemma strip_trimmed (s : pystr) : trimmed (strip s).
Proof.
  unfold trimmed, strip, rstrip. split.
  - destruct (lstrip_suffix (rev (lstrip s))) as [p Hp].
    apply (f_equal (@rev N)) in Hp.
    rewrite rev_involutive, rev_app_distr in Hp.
    apply head_nonspace_prefix with (t := rev p). rewrite <- Hp.
    apply lstrip_head_nonspace.
  - rewrite rev_involutive. apply lstrip_head_nonspace.
Qed.

Lemma trimmed_strip (s : pystr) : trimmed s -> strip s = s.
Proof.
  intros [Hh Ht]. unfold strip, rstrip.
  rewrite (lstrip_fixed _ Hh), (lstrip_fixed _ Ht). apply rev_involutive.
Qed.

Lemma strip_idempotent (s : pystr) : strip (strip s) = strip s.
Proof. apply trimmed_strip, strip_trimmed. Qed.

Lemma rev_not_nil {A} (l : list A) : l <> [] -> rev l <> [].
Proof. intros H E. apply H. apply rev_nil_inv. exact E. Qed.

(** Two non-empty trimmed strings around any middle part make a trimmed
    string. *)
Lemma trimmed_around (s mid t : pystr) :
  s <> [] -> t <> [] -> trimmed s -> trimmed t -> trimmed (s ++ mid ++ t).
Proof.
  intros Hs Ht [Hs1 _] [_ Ht2]. split.
  - apply head_nonspace_app; assumption.
  - rewrite !rev_app_distr, <- app_assoc.
    apply head_nonspace_app; [apply rev_not_nil|]; assumption.
Qed.

(** Joining non-empty trimmed parts gives a trimmed string, which is
    empty only when there is no part. *)
Lemma join_trimmed (sep : pystr) (parts : list pystr) :
  Forall (fun p => p <> [] /\ trimmed p) parts ->
  trimmed (join sep parts) /\ (parts <> [] -> join sep parts <> []).
Proof.
  induction 1 as [|p ps [Hp Htp] Hps [IHt IHn]].
  - split; [split; exact I | intros H; exfalso; apply H; reflexivity].
  - destruct ps as [|q ps].
    + simpl. split; [exact Htp | intros _; exact Hp].
    + change (join sep (p :: q :: ps)) with (p ++ sep ++ join sep (q :: ps)).
      split.
      * apply trimmed_around; auto. apply IHn. discriminate.
      * intros _ E. apply app_eq_nil in E. destruct E as [E _]. auto.
Qed.

Lemma page_texts_trimmed (texts : list (option pystr)) :
  Forall (fun p => p <> [] /\ trimmed p)
         (filter truthy (List.map page_text texts)).
Proof.
  apply Forall_forall. intros p Hin. apply filter_In in Hin.
  destruct Hin as [Hin Hp]. apply in_map_iff in Hin.
  destruct Hin as (t & <- & _). split.
  - intros E. rewrite E in Hp. discriminate.
  - apply strip_trimmed.
Qed.

Lemma page_texts_nil_iff (texts : list (option pystr)) :
  filter truthy (List.map page_text texts) = []
  <-> forallb blank_page texts = true.
Proof.
  induction texts as [|t texts IH]; [simpl; tauto|].
  cbn [List.map filter forallb]. unfold blank_page at 1, page_text at 1.
  rewrite truthy_strip.
  destruct (blank (opt_or t [])); cbn [negb andb]; [exact IH|].
  split; discriminate.
Qed.

End TrimmedStrings.

(** ** Module start-up *)

Section StartUp.

(** X1.  Start-up goes through exactly when the environment variable is
    set to something other than whitespace; the key kept is the value
    without the whitespace around it.  Otherwise start-up raises the
    [RuntimeError] about the missing key. *)
Theorem load_api_key_cases (getenv : option pystr) :
  (forall key,
      load_api_key getenv = Ok key <->
      exists v, getenv = Some v /\ blank v = false /\ key = strip v)
  /\ (load_api_key getenv = Raise missing_key <->
      getenv = None \/ exists v, getenv = Some v /\ blank v = true).
Proof.
  unfold load_api_key. destruct getenv as [v|].
  - rewrite truthy_strip, negb_involutive.
    destruct (blank v) eqn:B; split.
    + intros key. split; [discriminate|].
      intros (v' & Hv & Hb & _). injection Hv as <-. congruence.
    + split; [intros _; right; exists v; auto | reflexivity].
    + intros key. split.
      * intros H. injection H as <-. exists v. auto.
      * intros (v' & Hv & _ & ->). injection Hv as <-. reflexivity.
    + split; [discriminate|].
      intros [H | (v' & Hv & Hb)]; [discriminate|].
      injection Hv as <-. congruence.
  - split.
    + intros key. split; [discriminate|]. intros (v & Hv & _). discriminate.
    + split; [intros _; left; reflexivity | reflexivity].
Qed.

End StartUp.

(** ** ResponseFormatter, continued *)

Section LineBreaks.

Lemma format_html_each_break (text : pystr) :
  format_html text = flat_map break_each (replace [cr; nl] [nl] text).
Proof.
  rewrite format_html_passes, line_breaks_after_paragraphs.
  apply replace_single.
Qed.

Lemma scan_crlf_without_newline (fuel : nat) (s : pystr) :
  ~ In nl s -> replace_scan fuel [cr; nl] [nl] s = s.
Proof.
  revert s; induction fuel as [|fuel IH]; intros s Hs; [reflexivity|].
  destruct s as [|a s]; [reflexivity|].
  cbn [replace_scan]. rewrite strip_prefix_pair.
  assert (Hrest : ~ In nl s) by (intros H; apply Hs; right; exact H).
  destruct s as [|b s'].
  - rewrite IH by exact Hrest. reflexivity.
  - destruct (N.eqb nl b) eqn:E.
    + apply N.eqb_eq in E. exfalso. apply Hs. right. left. symmetry. exact E.
    + rewrite andb_false_r. rewrite IH by exact Hrest. reflexivity.
Qed.

Lemma break_each_without_newline (s : pystr) :
  ~ In nl s -> flat_map break_each s = s.
Proof.
  induction s as [|a s IH]; intros Hs; [reflexivity|].
  cbn [flat_map]. unfold break_each at 1.
  destruct (N.eqb a nl) eqn:E.
  - apply N.eqb_eq in E. exfalso. apply Hs. left. exact E.
  - simpl. rewrite IH; [reflexivity|]. intros H. apply Hs. right. exact H.
Qed.

(** X2.  The markup never holds a line feed: every ["\n"] of the answer
    has become a marker. *)
Theorem format_html_no_line_feed (text : pystr) :
  ~ In nl (format_html text).
Proof.
  rewrite format_html_each_break. intros H.
  apply in_flat_map in H. destruct H as (a & _ & Ha).
  unfold break_each in Ha. destruct (N.eqb a nl) eqn:E.
  - vm_compute in Ha. intuition discriminate.
  - destruct Ha as [Ha | []]. subst a. rewrite N.eqb_refl in E. discriminate.
Qed.

(** X3.  An answer without a line feed comes out as it went in: the
    formatter changes line breaks only and escapes nothing. *)
Theorem format_html_without_breaks (text : pystr) :
  ~ In nl text -> format_html text = text.
Proof.
  intros H. rewrite format_html_each_break. unfold replace.
  rewrite scan_crlf_without_newline by exact H.
  apply break_each_without_newline. exact H.
Qed.

Lemma format_html_without_breaks_witness :
  format_html (lit "<b>2 < 3</b> & so on") = lit "<b>2 < 3</b> & so on".
Proof.
  apply (format_html_without_breaks (lit "<b>2 < 3</b> & so on")).
  vm_compute. intuition discriminate.
Defined.

End LineBreaks.

(** ** GenerationClient, for any number of tries *)

Section AnyTries.

Variable env : Collaborators.
Variable model : pystr.
Variable c : contents.

Lemma sleeps_failed_attempts (k i : nat) :
  sleeps (failed_attempts model c k i)
  = List.map (fun j => (2 * (Z.of_nat j + 1))%Z) (seq i k).
Proof.
  revert i; induction k as [|k IH]; intros i; [reflexivity|].
  cbn [failed_attempts sleeps seq List.map]. rewrite IH. reflexivity.
Qed.

Lemma total_sleep_failed_attempts (k i : nat) :
  total_sleep (failed_attempts model c k i)
  = (Z.of_nat k * (2 * Z.of_nat i + Z.of_nat k + 1))%Z.
Proof.
  unfold total_sleep. revert i; induction k as [|k IH]; intros i.
  - reflexivity.
  - cbn [failed_attempts sleeps fold_right]. rewrite IH. lia.
Qed.

Lemma total_sleep_app (w w' : World) :
  total_sleep (w ++ w') = (total_sleep w + total_sleep w')%Z.
Proof.
  unfold total_sleep. rewrite sleeps_app.
  induction (sleeps w) as [|z l IH]; simpl; [reflexivity|].
  rewrite IH. lia.
Qed.

(** The loop ends on the first call that answers, or after a failure of
    every call it may make. *)
Lemma retry_loop_shape (remaining : nat) :
  forall (i : nat) last w,
    (exists k resp,
        (k < remaining)%nat
        /\ retry_loop env model c remaining i last w
           = (Ok (response_text resp),
              w ++ failed_attempts model c k i ++ [EvGenerate model c]))
    \/ (exists e,
           retry_loop env model c remaining i last w
           = (Raise e, w ++ failed_attempts model c remaining i)).
Proof.
  induction remaining as [|remaining IH]; intros i last w.
  - right. destruct last as [e|]; eexists; simpl; rewrite app_nil_r;
      reflexivity.
  - destruct (generate_content env (gen_calls w) model c) as [e|resp] eqn:E.
    + rewrite (@retry_loop_step_fail env model c remaining i last w e E).
      destruct (IH (S i) (Some e)
                  (w ++ [EvGenerate model c; EvSleep (2 * (Z.of_nat i + 1))]))
        as [(k & resp & Hk & ->) | (e' & ->)].
      * left. exists (S k), resp. split; [lia|].
        rewrite <- app_assoc. reflexivity.
      * right. exists e'. rewrite <- app_assoc. reflexivity.
    + left. exists 0%nat, resp. split; [lia|].
      apply (@retry_loop_step_ok env model c remaining i last w resp E).
Qed.

(** X4.  With [tries] at least 1 and every attempt failing, the client
    raises the failure of the last attempt after [tries] calls, having
    slept [2 * k] seconds after attempt [k]: [tries * (tries + 1)]
    seconds in all. *)
Theorem gen_with_retry_exhausts_tries (tries : nat) (w : World) (e : exn) :
  (1 <= tries)%nat ->
  (forall k, (1 <= k <= tries)%nat ->
     exists e', attempt env w model c k = inl e') ->
  attempt env w model c tries = inl e ->
  exists w',
    gen_with_retry env model c tries w = (Raise e, w ++ w')
    /\ gen_calls w' = tries
    /\ sleeps w' = List.map (fun k => (2 * Z.of_nat k)%Z) (seq 1 tries)
    /\ total_sleep w' = (Z.of_nat tries * (Z.of_nat tries + 1))%Z.
Proof.
  intros Htries Hfail Hlast. destruct tries as [|n]; [lia|].
  unfold attempt in *. exists (failed_attempts model c (S n) 0).
  split; [|split; [|split]].
  - unfold gen_with_retry. apply (@retry_loop_exhausted env model c n).
    + intros j Hj. destruct (Hfail (S j) ltac:(lia)) as [e' He'].
      exists e'. rewrite <- He'. f_equal. lia.
    + rewrite <- Hlast. f_equal. lia.
  - apply gen_calls_failed_attempts.
  - rewrite sleeps_failed_attempts, <- seq_shift, map_map.
    apply map_ext. intros j. lia.
  - rewrite total_sleep_failed_attempts. lia.
Qed.

Lemma failed_attempts_only_generate (k : nat) :
  forall i,
    pdf_reads (failed_attempts model c k i) = 0%nat
    /\ image_opens (failed_attempts model c k i) = 0%nat.
Proof.
  induction k as [|k IH]; intros i; [split; reflexivity|].
  apply (IH (S i)).
Qed.

Lemma pdf_reads_app (w w' : World) :
  pdf_reads (w ++ w') = (pdf_reads w + pdf_reads w')%nat.
Proof. unfold pdf_reads. rewrite filter_app, length_app. reflexivity. Qed.

Lemma image_opens_app (w w' : World) :
  image_opens (w ++ w') = (image_opens w + image_opens w')%nat.
Proof. unfold image_opens. rewrite filter_app, length_app. reflexivity. Qed.

(** What a call of the client adds to the trace. *)
Lemma gen_with_retry_bounded (tries : nat) (w : World) :
  exists r w',
    gen_with_retry env model c tries w = (r, w ++ w')
    /\ bounded_by tries 0 0 (Z.of_nat tries * (Z.of_nat tries + 1)) w'.
Proof.
  unfold gen_with_retry, bounded_by.
  destruct (retry_loop_shape tries 0 None w)
    as [(k & resp & Hk & ->) | (e & ->)];
    do 2 eexists; (split; [reflexivity|]).
  - rewrite gen_calls_app, pdf_reads_app, image_opens_app, total_sleep_app.
    rewrite gen_calls_failed_attempts, total_sleep_failed_attempts.
    destruct (failed_attempts_only_generate k 0) as [-> ->]. cbn. nia.
  - rewrite gen_calls_failed_attempts, total_sleep_failed_attempts.
    destruct (failed_attempts_only_generate tries 0) as [-> ->]. nia.
Qed.

(** X5.  Whatever the service does, a call of the client with [tries]
    tries makes at most [tries] calls and sleeps at most
    [tries * (tries + 1)] seconds, touching nothing else; with no try at
    all it makes no call and raises a [TypeError], as [raise None]
    does. *)
Theorem gen_with_retry_effort (tries : nat) (w : World) :
  (exists w',
      snd (gen_with_retry env model c tries w) = w ++ w'
      /\ bounded_by tries 0 0 (Z.of_nat tries * (Z.of_nat tries + 1)) w')
  /\ gen_with_retry env model c 0 w = (Raise raise_None, w).
Proof.
  split; [|reflexivity].
  destruct (gen_with_retry_bounded tries w) as (r & w' & E & Hb).
  exists w'. rewrite E. split; [reflexivity | exact Hb].
Qed.

End AnyTries.

Lemma gen_with_retry_exhausts_tries_witness :
  exists w',
    gen_with_retry (stub no_pages a_picture 5 None) TEXT_MODEL
      (CStr (lit "q")) 5 []
    = (Raise (service_down 4), [] ++ w')
    /\ gen_calls w' = 5%nat
    /\ sleeps w' = [2; 4; 6; 8; 10]%Z
    /\ total_sleep w' = 30%Z.
Proof.
  apply (@gen_with_retry_exhausts_tries (stub no_pages a_picture 5 None)
           TEXT_MODEL (CStr (lit "q")) 5 [] (service_down 4)).
  - lia.
  - intros k Hk.
    destruct k as [|[|[|[|[|[|k]]]]]]; try lia; eexists; reflexivity.
  - reflexivity.
Defined.

(** ** TextExtractor and ImageTranscriber, continued *)

Section Ingestion.

Variable env : Collaborators.

Lemma trimmed_nil : trimmed [].
Proof. split; exact I. Qed.

(** Whatever the extractor returns has no whitespace at its ends. *)
Lemma extract_pdf_text_trimmed (f : FileStorage) (w w' : World) (s : pystr) :
  extract_pdf_text env f w = (Ok s, w') -> trimmed s.
Proof.
  destruct (PdfReader env (stream f)) as [e|pages] eqn:E.
  - rewrite (@extract_pdf_text_reader_fails env f w e E).
    intros H. injection H as <- _. apply trimmed_nil.
  - rewrite (@extract_pdf_text_pages env f w pages E).
    destruct (extract_pages pages [] (w ++ [EvPdfReader (stream f)]))
      as [[parts|e] w0]; intros H; injection H as <- _.
    + apply strip_trimmed.
    + apply trimmed_nil.
Qed.

(** Whatever the transcriber returns has no whitespace at its ends. *)
Lemma ocr_image_trimmed (f : FileStorage) (w w' : World) (s : pystr) :
  ocr_image_with_gemini env f w = (Ok s, w') -> trimmed s.
Proof.
  unfold ocr_image_with_gemini, bind.
  destruct (call_Image_open env (stream f) w) as [[img|e] w0]; [|discriminate].
  destruct (gen_with_retry env VISION_MODEL
              (CList [PText ocr_prompt; PImage img]) 3 w0) as [[r|e] w1];
    [|discriminate].
  unfold ret. intros H. injection H as <- _. apply strip_trimmed.
Qed.

(** X6.  When every page of the document answers, the extractor returns
    the non-empty stripped page texts joined by a blank line (the final
    [strip] changes nothing), and this is the empty string exactly when
    every page is blank. *)
Theorem extract_pdf_text_joined (f : FileStorage) (w : World)
    (texts : list (option pystr)) :
  PdfReader env (stream f) = inr (List.map inr texts) ->
  fst (extract_pdf_text env f w)
  = Ok (join [nl; nl] (filter truthy (List.map page_text texts)))
  /\ (fst (extract_pdf_text env f w) = Ok []
      <-> forallb blank_page texts = true).
Proof.
  intros Hp.
  destruct (join_trimmed [nl; nl] (page_texts_trimmed texts)) as [Ht Hne].
  assert (E : fst (extract_pdf_text env f w)
              = Ok (join [nl; nl] (filter truthy (List.map page_text texts)))).
  { rewrite (@extract_pdf_text_pages env f w _ Hp), extract_pages_texts.
    cbn [fst app]. rewrite (trimmed_strip Ht). reflexivity. }
  split; [exact E|]. rewrite E, <- page_texts_nil_iff. split.
  - intros H. injection H as H.
    destruct (filter truthy (List.map page_text texts)) as [|p ps];
      [reflexivity|].
    exfalso. apply Hne; [discriminate | exact H].
  - intros ->. reflexivity.
Qed.

(** X7.  When the image decodes and attempt [k] of the transcription is
    the first to succeed, the transcriber returns the text of that
    attempt without the whitespace around it, having opened the image
    once and called the service [k] times with the fixed instruction and
    the decoded image. *)
Theorem ocr_image_success (f : FileStorage) (w : World) (img : Image)
    (k : nat) (resp : Response) :
  let request := CList [PText ocr_prompt; PImage img] in
  let w0 := w ++ [EvImageOpen (stream f)] in
  Image_open_RGB env (stream f) = inr img ->
  (1 <= k <= 3)%nat ->
  (forall j, (1 <= j < k)%nat ->
     exists e, attempt env w0 VISION_MODEL request j = inl e) ->
  attempt env w0 VISION_MODEL request k = inr resp ->
  ocr_image_with_gemini env f w
  = (Ok (strip (response_text resp)),
     w0 ++ failed_attempts VISION_MODEL request (k - 1) 0
        ++ [EvGenerate VISION_MODEL request]).
Proof.
  cbv zeta. intros Hopen Hk Hfail Hok. unfold attempt in *.
  unfold ocr_image_with_gemini, call_Image_open, bind, emit.
  rewrite Hopen. cbn [lift_sum ret]. unfold gen_with_retry.
  rewrite (@retry_loop_success_after env VISION_MODEL
             (CList [PText ocr_prompt; PImage img]) (k - 1) 3 0 None
             (w ++ [EvImageOpen (stream f)]) resp).
  - rewrite or_else_nil. reflexivity.
  - lia.
  - intros j Hj. destruct (Hfail (S j) ltac:(lia)) as [e He].
    exists e. rewrite <- He. f_equal. lia.
  - exact Hok.
Qed.

(** What a call of the transcriber adds to the trace. *)
Lemma ocr_image_bounded (f : FileStorage) (w : World) :
  exists r w',
    ocr_image_with_gemini env f w = (r, w ++ w') /\ bounded_by 3 0 1 12 w'.
Proof.
  unfold ocr_image_with_gemini, call_Image_open, bind, emit.
  destruct (Image_open_RGB env (stream f)) as [e|img]; cbn [lift_sum ret raise].
  - exists (Raise e), [EvImageOpen (stream f)]. split; [reflexivity|].
    vm_compute. repeat split; try lia; congruence.
  - destruct (@gen_with_retry_bounded env VISION_MODEL
                (CList [PText ocr_prompt; PImage img]) 3
                (w ++ [EvImageOpen (stream f)]))
      as (r & w' & E & Hg & Hp & Hi & Hs).
    rewrite E.
    exists (match r with Ok t => Ok (strip (or_else t [])) | Raise e => Raise e end),
           ([EvImageOpen (stream f)] ++ w').
    split; [destruct r; rewrite <- app_assoc; reflexivity|].
    unfold bounded_by.
    rewrite gen_calls_app, pdf_reads_app, image_opens_app, total_sleep_app.
    change (gen_calls [EvImageOpen (stream f)]) with 0%nat.
    change (pdf_reads [EvImageOpen (stream f)]) with 0%nat.
    change (image_opens [EvImageOpen (stream f)]) with 1%nat.
    change (total_sleep [EvImageOpen (stream f)]) with 0%Z.
    lia.
Qed.

End Ingestion.

Lemma extract_pdf_text_joined_witness :
  let env :=
    stub (inr [inr (Some (lit " Osmosis ")); inr (Some (lit "  "));
               inr (Some (lit "Cells"))]) a_picture 0 None in
  fst (extract_pdf_text env (upload "notes.pdf") [])
  = Ok (lit "Osmosis" ++ [nl; nl] ++ lit "Cells").
Proof.
  cbv zeta.
  apply (@extract_pdf_text_joined
           (stub (inr [inr (Some (lit " Osmosis ")); inr (Some (lit "  "));
                       inr (Some (lit "Cells"))]) a_picture 0 None)
           (upload "notes.pdf") []
           [Some (lit " Osmosis "); Some (lit "  "); Some (lit "Cells")]).
  reflexivity.
Defined.

Lemma ocr_image_success_witness :
  ocr_image_with_gemini
    (stub no_pages a_picture 1 (Some (lit " Fe + O2 -> Fe2O3 ")))
    (upload "page.png") []
  = (Ok (lit "Fe + O2 -> Fe2O3"),
     [EvImageOpen []]
     ++ failed_attempts VISION_MODEL
          (CList [PText ocr_prompt;
                  PImage {| im_mode := lit "RGB"; im_data := [] |}]) 1 0
     ++ [EvGenerate VISION_MODEL
           (CList [PText ocr_prompt;
                   PImage {| im_mode := lit "RGB"; im_data := [] |}])]).
Proof.
  apply (@ocr_image_success
           (stub no_pages a_picture 1 (Some (lit " Fe + O2 -> Fe2O3 ")))
           (upload "page.png") []
           {| im_mode := lit "RGB"; im_data := [] |} 2
           {| text := Some (lit " Fe + O2 -> Fe2O3 ") |}).
  - reflexivity.
  - lia.
  - intros j Hj. replace j with 1%nat by lia. eexists. reflexivity.
  - reflexivity.
Defined.

(** ** RequestOrchestrator, continued *)

Section Outcomes.

Variable env : Collaborators.

Lemma bounded_by_nil : bounded_by 0 0 0 0 [].
Proof. vm_compute. repeat split; try lia; congruence. Qed.

Lemma bounded_by_app (g p i g' p' i' : nat) (s s' : Z) (w w' : World) :
  bounded_by g p i s w -> bounded_by g' p' i' s' w' ->
  bounded_by (g + g') (p + p') (i + i') (s + s') (w ++ w').
Proof.
  unfold bounded_by. intros (Hg & Hp & Hi & Hs) (Hg' & Hp' & Hi' & Hs').
  rewrite gen_calls_app, pdf_reads_app, image_opens_app, total_sleep_app.
  lia.
Qed.

Lemma bounded_by_le (g p i g' p' i' : nat) (s s' : Z) (w : World) :
  bounded_by g p i s w ->
  (g <= g')%nat -> (p <= p')%nat -> (i <= i')%nat -> (s <= s')%Z ->
  bounded_by g' p' i' s' w.
Proof. unfold bounded_by. intros (Hg & Hp & Hi & Hs) ? ? ? ?. lia. Qed.

Lemma answer_stage_outcome (mode question notes : pystr) (w : World) :
  exists page w',
    answer_stage env mode question notes w = (Ok page, w ++ w')
    /\ (answer page = [] \/ error page = [])
    /\ bounded_by 3 0 0 12 w'.
Proof.
  unfold answer_stage, try_catch.
  destruct (@gen_with_retry_bounded env TEXT_MODEL
              (CStr (build_prompt mode question notes)) 3 w)
    as (r & w' & E & Hb).
  rewrite E. destruct r as [final_text|e]; do 2 eexists;
    (split; [reflexivity|]); (split; [|exact Hb]).
  - right. reflexivity.
  - left. reflexivity.
Qed.

(** The handler after step 2, whatever the image and the service do. *)
Lemma after_pdf_outcome (req : Request) (notes : pystr) (w1 : World) :
  exists page w',
    match attached (files_image req) with
    | Some image =>
        match ocr_image_with_gemini env image w1 with
        | (Ok extracted, w2) =>
            answer_stage env (request_mode req) (request_question req)
              (if truthy extracted then
                 if truthy notes
                 then strip (notes ++ [nl; nl] ++ extracted)
                 else extracted
               else notes) w2
        | (Raise e, w2) =>
            (Ok (render_template [] (lit "Image OCR failed: " ++ exn_str e)), w2)
        end
    | None =>
        answer_stage env (request_mode req) (request_question req) notes w1
    end = (Ok page, w1 ++ w')
    /\ (answer page = [] \/ error page = [])
    /\ bounded_by 6 0 1 24 w'.
Proof.
  destruct (attached (files_image req)) as [image|].
  - destruct (ocr_image_bounded env image w1) as (r & wo & -> & Ho).
    destruct r as [extracted|e].
    + match goal with
      | |- context [answer_stage env ?m ?q ?n (w1 ++ wo)] =>
          destruct (answer_stage_outcome m q n (w1 ++ wo))
            as (page & wa & -> & Hpage & Ha)
      end.
      exists page, (wo ++ wa). split; [rewrite app_assoc; reflexivity|].
      split; [exact Hpage|].
      apply (bounded_by_app Ho Ha).
    + do 2 eexists. split; [reflexivity|]. split; [left; reflexivity|].
      apply (bounded_by_le Ho); lia.
  - destruct (answer_stage_outcome (request_mode req) (request_question req)
                notes w1) as (page & wa & -> & Hpage & Ha).
    exists page, wa. split; [reflexivity|]. split; [exact Hpage|].
    apply (bounded_by_le Ha); lia.
Qed.

Lemma home_outcome (req : Request) (w : World) :
  exists page w',
    home env req w = (Ok page, w ++ w')
    /\ (answer page = [] \/ error page = [])
    /\ bounded_by 6 1 1 24 w'.
Proof.
  assert (Hidle : forall page,
             answer page = [] ->
             home env req w = (Ok page, w) ->
             exists page w',
               home env req w = (Ok page, w ++ w')
               /\ (answer page = [] \/ error page = [])
               /\ bounded_by 6 1 1 24 w').
  { intros page Ha E. exists page, []. rewrite app_nil_r.
    split; [exact E|]. split; [left; exact Ha|].
    apply (bounded_by_le bounded_by_nil); lia. }
  destruct (method req) eqn:Hm;
    try (apply (Hidle (render_template [] [])); [reflexivity|];
         unfold home; rewrite Hm; reflexivity).
  destruct (request_question req) as [|q0 q] eqn:Hq.
  { apply (Hidle (render_template [] msg_no_question)); [reflexivity|].
    unfold home. rewrite Hm. fold (request_question req). rewrite Hq.
    reflexivity. }
  assert (Hasked : ~ blank_question req).
  { intros H. apply blank_question_iff in H. congruence. }
  destruct (attached (files_pdf req)) as [f|] eqn:Hpdf.
  - destruct (extract_pdf_text_returns env f w) as [s Hs].
    destruct s as [|s0 s].
    + exists (render_template [] msg_scanned_pdf), [EvPdfReader (stream f)].
      split; [|split; [left; reflexivity|]].
      * unfold home. rewrite Hm. fold (request_question req). rewrite Hq.
        cbn [truthy negb]. rewrite Hpdf. unfold bind. rewrite Hs. reflexivity.
      * vm_compute. repeat split; try lia; congruence.
    + assert (Hstage : pdf_stage env req w (s0 :: s)
                         (w ++ [EvPdfReader (stream f)])).
      { unfold pdf_stage. rewrite Hpdf. split; [exact Hs | discriminate]. }
      rewrite (@home_after_pdf env req w _ _ Hm Hasked Hstage).
      destruct (after_pdf_outcome req (s0 :: s) (w ++ [EvPdfReader (stream f)]))
        as (page & w' & -> & Hpage & Hb).
      exists page, ([EvPdfReader (stream f)] ++ w').
      split; [rewrite app_assoc; reflexivity|]. split; [exact Hpage|].
      assert (Hread : bounded_by 0 1 0 0 [EvPdfReader (stream f)])
        by (vm_compute; repeat split; try lia; congruence).
      apply (bounded_by_app Hread Hb).
  - assert (Hstage : pdf_stage env req w [] w).
    { unfold pdf_stage. rewrite Hpdf. split; reflexivity. }
    rewrite (@home_after_pdf env req w _ _ Hm Hasked Hstage).
    destruct (after_pdf_outcome req [] w) as (page & w' & -> & Hpage & Hb).
    exists page, w'. split; [reflexivity|]. split; [exact Hpage|].
    apply (bounded_by_le Hb); lia.
Qed.

End Outcomes.

Section Handler.

Variable env : Collaborators.

(** X8.  No failure of a collaborator leaves the handler: whatever the
    PDF library, the image library and the generation service answer or
    raise, the handler goes on to render a page, and it only adds to
    the trace. *)
Theorem home_catches_collaborator_failures (req : Request) (w : World) :
  exists page w', home env req w = (Ok page, w ++ w').
Proof.
  destruct (home_outcome env req w) as (page & w' & E & _).
  exists page, w'. exact E.
Qed.

(** X9.  A rendered page never carries both an answer and an error. *)
Theorem home_answer_or_error (req : Request) (w : World) (page : Rendered) :
  fst (home env req w) = Ok page ->
  answer page = [] \/ error page = [].
Proof.
  destruct (home_outcome env req w) as (page' & w' & E & H & _).
  rewrite E. cbn [fst]. intros Heq. injection Heq as <-. exact H.
Qed.

(** X10.  Serving one request takes at most six calls to the generation
    service and sleeps 24 seconds at most. *)
Theorem home_effort (req : Request) (w : World) :
  exists w',
    snd (home env req w) = w ++ w'
    /\ (gen_calls w' <= 6)%nat
    /\ (0 <= total_sleep w' <= 24)%Z.
Proof.
  destruct (home_outcome env req w) as (page & w' & E & _ & Hg & _ & _ & Hs).
  exists w'. rewrite E. split; [reflexivity|]. split; [exact Hg | exact Hs].
Qed.

(** X11.  A request that is not a [POST] gets the empty form: no answer,
    no error, and no collaborator is called. *)
Theorem home_other_methods (req : Request) (w : World) :
  method req <> POST ->
  home env req w = (Ok (render_template [] []), w).
Proof.
  intros H. unfold home. destruct (method req); [reflexivity | reflexivity|].
  congruence.
Qed.

(** X12.  With a question asked, step 2 gone through and an image
    attached that the image library rejects, the failure comes out of
    the transcriber before any call to the generation service, and the
    handler answers with its message behind ["Image OCR failed: "]. *)
Theorem home_image_decode_failure (req : Request) (w w1 : World)
    (notes : pystr) (f : FileStorage) (e : exn) :
  method req = POST ->
  ~ blank_question req ->
  pdf_stage env req w notes w1 ->
  attached (files_image req) = Some f ->
  Image_open_RGB env (stream f) = inl e ->
  ocr_image_with_gemini env f w1 = (Raise e, w1 ++ [EvImageOpen (stream f)])
  /\ home env req w
     = (Ok (render_template [] (lit "Image OCR failed: " ++ exn_str e)),
        w1 ++ [EvImageOpen (stream f)]).
Proof.
  intros Hpost Hq Hpdf Himg Hopen.
  assert (Hocr : ocr_image_with_gemini env f w1
                 = (Raise e, w1 ++ [EvImageOpen (stream f)])).
  { unfold ocr_image_with_gemini, call_Image_open, bind, emit.
    rewrite Hopen. reflexivity. }
  split; [exact Hocr|].
  rewrite (@home_after_pdf env req w w1 notes Hpost Hq Hpdf), Himg, Hocr.
  reflexivity.
Qed.

Lemma pdf_stage_trimmed (req : Request) (w w1 : World) (notes : pystr) :
  pdf_stage env req w notes w1 -> trimmed notes.
Proof.
  unfold pdf_stage. destruct (attached (files_pdf req)) as [f|].
  - intros [H _]. eapply extract_pdf_text_trimmed; exact H.
  - intros [-> _]. apply trimmed_nil.
Qed.

(** X13.  With a question asked, step 2 gone through and a non-empty
    transcription, the notes the prompt is composed from are the
    transcription alone when there was no PDF text, and otherwise the
    PDF text, a blank line and the transcription, with nothing taken
    off either of them. *)
Theorem home_notes_merged (req : Request) (w w1 w2 : World)
    (notes extracted : pystr) (f : FileStorage) :
  method req = POST ->
  ~ blank_question req ->
  pdf_stage env req w notes w1 ->
  attached (files_image req) = Some f ->
  ocr_image_with_gemini env f w1 = (Ok extracted, w2) ->
  extracted <> [] ->
  home env req w
  = answer_stage env (request_mode req) (request_question req)
      (match notes with
       | [] => extracted
       | _ :: _ => notes ++ [nl; nl] ++ extracted
       end) w2.
Proof.
  intros Hpost Hq Hpdf Himg Hocr Hne.
  rewrite (@home_after_pdf env req w w1 notes Hpost Hq Hpdf), Himg, Hocr.
  destruct extracted as [|x extracted]; [congruence|]. cbn [truthy].
  destruct notes as [|n notes]; [reflexivity|]. cbn [truthy].
  rewrite trimmed_strip; [reflexivity|].
  apply trimmed_around; try discriminate.
  - eapply pdf_stage_trimmed; exact Hpdf.
  - eapply ocr_image_trimmed; exact Hocr.
Qed.

(** X14.  With a question asked and no file attached, the handler calls
    the generation service with the prompt composed over empty notes;
    when the first attempt answers, the page shows the formatted text
    and no error, after that single call. *)
Theorem home_question_only (req : Request) (w : World) (resp : Response) :
  let prompt :=
    CStr (build_prompt (request_mode req) (request_question req) []) in
  method req = POST ->
  ~ blank_question req ->
  attached (files_pdf req) = None ->
  attached (files_image req) = None ->
  attempt env w TEXT_MODEL prompt 1 = inr resp ->
  home env req w
  = (Ok (render_template (format_html (response_text resp)) []),
     w ++ [EvGenerate TEXT_MODEL prompt]).
Proof.
  cbv zeta. intros Hpost Hq Hpdf Himg Hok.
  assert (Hstage : pdf_stage env req w [] w).
  { unfold pdf_stage. rewrite Hpdf. split; reflexivity. }
  rewrite (@home_after_pdf env req w w [] Hpost Hq Hstage), Himg.
  unfold answer_stage, try_catch, gen_with_retry.
  unfold attempt in Hok. rewrite Nat.add_0_r in Hok.
  rewrite (@retry_loop_step_ok env TEXT_MODEL _ 2 0 None w resp Hok).
  reflexivity.
Qed.

(** X15.  With a question asked, step 2 gone through, no image attached
    and three failed attempts at the answer, the page shows no answer
    and the message of the third failure behind ["Gemini error: "]. *)
Theorem home_generation_failure (req : Request) (w w1 : World)
    (notes : pystr) (e1 e2 e3 : exn) :
  let prompt :=
    CStr (build_prompt (request_mode req) (request_question req) notes) in
  method req = POST ->
  ~ blank_question req ->
  pdf_stage env req w notes w1 ->
  attached (files_image req) = None ->
  attempt env w1 TEXT_MODEL prompt 1 = inl e1 ->
  attempt env w1 TEXT_MODEL prompt 2 = inl e2 ->
  attempt env w1 TEXT_MODEL prompt 3 = inl e3 ->
  home env req w
  = (Ok (render_template [] (lit "Gemini error: " ++ exn_str e3)),
     w1 ++ failed_attempts TEXT_MODEL prompt 3 0).
Proof.
  cbv zeta. intros Hpost Hq Hpdf Himg H1 H2 H3.
  rewrite (@home_after_pdf env req w w1 notes Hpost Hq Hpdf), Himg.
  unfold answer_stage, try_catch, gen_with_retry. unfold attempt in *.
  rewrite (@retry_loop_exhausted env TEXT_MODEL _ 2 0 None w1 e3).
  - reflexivity.
  - intros j Hj. destruct j as [|[|j]]; [| |lia]; eexists.
    + rewrite <- H1. f_equal.
    + rewrite <- H2. f_equal.
  - exact H3.
Qed.

Lemma attached_unnamed (f : FileStorage) :
  unnamed f -> attached (Some f) = None.
Proof.
  unfold unnamed, attached. destruct (filename f) as [name|].
  - intros ->. reflexivity.
  - reflexivity.
Qed.

(** X16.  A file field that comes without a file name is treated as if
    it were not there, for the PDF and for the image alike. *)
Theorem home_unnamed_files_ignored (req : Request) (w : World) :
  (forall f, files_pdf req = Some f -> unnamed f ->
     home env req w = home env (without_pdf req) w)
  /\ (forall f, files_image req = Some f -> unnamed f ->
        home env req w = home env (without_image req) w).
Proof.
  split; intros f Hf Hu; apply attached_unnamed in Hu;
    unfold home, without_pdf, without_image;
    cbn [method form_mode form_question files_pdf files_image];
    rewrite Hf, Hu; reflexivity.
Qed.

(** X17.  The handler reads the question without the whitespace around
    it and a missing mode as ["explain"]: a request and the same request
    with these two fields so rewritten are served alike. *)
Theorem home_normalized (req : Request) (w : World) :
  home env (normalized req) w = home env req w.
Proof.
  unfold home, normalized.
  cbn [method form_mode form_question files_pdf files_image opt_or].
  rewrite or_else_nil. unfold request_question at 1 2.
  rewrite strip_idempotent. reflexivity.
Qed.

End Handler.

(** ** The handler on further concrete requests *)

Lemma home_answer_or_error_witness :
  let page := render_template (lit "H2O") [] in
  answer page = [] \/ error page = [].
Proof.
  cbv zeta.
  apply (@home_answer_or_error
           (stub no_pages a_picture 0 (Some (lit "H2O")))
           (ask "What is water?" None None) []
           (render_template (lit "H2O") [])).
  reflexivity.
Defined.

Lemma home_other_methods_witness :
  let req := {| method := GET; form_mode := None; form_question := None;
                files_pdf := None; files_image := None |} in
  home (stub no_pages a_picture 0 None) req []
  = (Ok (render_template [] []), []).
Proof.
  cbv zeta.
  apply (@home_other_methods (stub no_pages a_picture 0 None)
           {| method := GET; form_mode := None; form_question := None;
              files_pdf := None; files_image := None |} []).
  discriminate.
Defined.

Lemma home_image_decode_failure_witness :
  let broken := Exn (lit "UnidentifiedImageError")
                    (lit "cannot identify image file") in
  let env := stub no_pages (inl broken) 0 (Some (lit "never asked")) in
  let req := ask "What is rust?" None (Some (upload "page.txt")) in
  ocr_image_with_gemini env (upload "page.txt") []
  = (Raise broken, [] ++ [EvImageOpen []])
  /\ home env req []
     = (Ok (render_template []
              (lit "Image OCR failed: " ++ lit "cannot identify image file")),
        [] ++ [EvImageOpen []]).
Proof.
  cbv zeta.
  apply (@home_image_decode_failure
           (stub no_pages
              (inl (Exn (lit "UnidentifiedImageError")
                        (lit "cannot identify image file")))
              0 (Some (lit "never asked")))
           (ask "What is rust?" None (Some (upload "page.txt")))
           [] [] [] (upload "page.txt")
           (Exn (lit "UnidentifiedImageError")
                (lit "cannot identify image file"))).
  - reflexivity.
  - intros H. vm_compute in H. discriminate H.
  - split; reflexivity.
  - reflexivity.
  - reflexivity.
Defined.

Lemma home_notes_merged_witness :
  let env := stub (inr [inr (Some (lit " Rust is iron oxide. "))])
                  a_picture 0 (Some (lit " Fe + O2 -> Fe2O3 ")) in
  let req := ask "What is rust?"
               (Some (upload "notes.pdf")) (Some (upload "page.png")) in
  let w2 :=
    [EvPdfReader []; EvImageOpen [];
     EvGenerate VISION_MODEL
       (CList [PText ocr_prompt;
               PImage {| im_mode := lit "RGB"; im_data := [] |}])] in
  home env req []
  = answer_stage env (lit "explain") (lit "What is rust?")
      (lit "Rust is iron oxide." ++ [nl; nl] ++ lit "Fe + O2 -> Fe2O3") w2.
Proof.
  cbv zeta.
  apply (@home_notes_merged
           (stub (inr [inr (Some (lit " Rust is iron oxide. "))])
                 a_picture 0 (Some (lit " Fe + O2 -> Fe2O3 ")))
           (ask "What is rust?"
              (Some (upload "notes.pdf")) (Some (upload "page.png")))
           [] [EvPdfReader []] _
           (lit "Rust is iron oxide.") (lit "Fe + O2 -> Fe2O3")
           (upload "page.png")).
  - reflexivity.
  - intros H. vm_compute in H. discriminate H.
  - split; [reflexivity | discriminate].
  - reflexivity.
  - reflexivity.
  - discriminate.
Defined.

Lemma home_question_only_witness :
  let env := stub no_pages a_picture 0 (Some (lit "Water moves.")) in
  let req := ask "What is osmosis?" None None in
  home env req []
  = (Ok (render_template (lit "Water moves.") []),
     [] ++ [EvGenerate TEXT_MODEL
              (CStr (build_prompt (lit "explain") (lit "What is osmosis?") []))]).
Proof.
  cbv zeta.
  apply (@home_question_only
           (stub no_pages a_picture 0 (Some (lit "Water moves.")))
           (ask "What is osmosis?" None None) []
           {| text := Some (lit "Water moves.") |}).
  - reflexivity.
  - intros H. vm_compute in H. discriminate H.
  - reflexivity.
  - reflexivity.
  - reflexivity.
Defined.

Lemma home_generation_failure_witness :
  let env := stub no_pages a_picture 3 None in
  let req := ask "What is osmosis?" None None in
  home env req []
  = (Ok (render_template [] (lit "Gemini error: " ++ exn_str (service_down 2))),
     [] ++ failed_attempts TEXT_MODEL
             (CStr (build_prompt (lit "explain") (lit "What is osmosis?") []))
             3 0).
Proof.
  cbv zeta.
  apply (@home_generation_failure
           (stub no_pages a_picture 3 None)
           (ask "What is osmosis?" None None) [] [] []
           (service_down 0) (service_down 1) (service_down 2)).
  - reflexivity.
  - intros H. vm_compute in H. discriminate H.
  - split; reflexivity.
  - reflexivity.
  - reflexivity.
  - reflexivity.
  - reflexivity.
Defined.

Lemma home_unnamed_files_ignored_witness :
  let empty_field := {| filename := Some []; stream := [] |} in
  let env := stub no_pages a_picture 0 (Some (lit "Water moves.")) in
  home env (ask "What is osmosis?" (Some empty_field) None) []
  = home env (without_pdf (ask "What is osmosis?" (Some empty_field) None)) [].
Proof.
  cbv zeta.
  apply (proj1 (@home_unnamed_files_ignored
                  (stub no_pages a_picture 0 (Some (lit "Water moves.")))
                  (ask "What is osmosis?"
                     (Some {| filename := Some []; stream := [] |}) None) [])
           {| filename := Some []; stream := [] |}).
  - reflexivity.
  - reflexivity.
Defined.
